(** * absystool: a shallow embedding of [absystool.py]

    The client of the AbsysNET library catalogue is one Python class,
    [AbsysClient], and a command dispatcher.  The embedding follows the
    source function by function:

    - Python [str] values are Rocq strings holding the UTF-8 bytes of the
      text; [str.split], [str.strip], [str.replace], [in] and [int(s, 10)]
      are written out below (section "Python built-ins");
    - exceptions are an error monad; no function of the source catches one,
      so a raised exception ends the run;
    - the object fields [self._creds] and [self.base], the file system and
      everything the process prints or requests are explicit state;
    - [os.makedirs] is written out as the standard library has it, with
      [posixpath.split] and [os.mkdir]: it makes every missing directory on
      the way and fails on a regular file in its way;
    - the collaborators the program calls but does not contain are kept at
      their interface: [requests] is a function from requests to responses,
      [lxml.html.fromstring] is the document a response carries, [json] is
      the value a file denotes, [prettytable] is the rows handed to it. *)

From stdpp Require Import gmap strings list fin_maps.
From Stdlib Require Import ZArith Ascii String.

#[local] Set Warnings "-register-all".
#[local] Open Scope string_scope.
#[local] Open Scope Z_scope.

(** ** Exceptions *)

(** The exception classes the program can raise.  The source defines no
    exception class of its own and has no [try] statement. *)
Inductive exn : Type :=
| IndexError
| KeyError (key : string)
| TypeError
| AttributeError
| ValueError
| OverflowError
| JSONDecodeError
| EOFError
| RequestException
| ParserError
| FileNotFoundError
| FileExistsError
| IsADirectoryError
| NotADirectoryError.

(** Pure partial operations return [inl e] for [raise e]. *)
Definition result (A : Type) : Type := (exn + A)%type.

#[global] Instance result_ret : MRet result := fun A a => inr a.
#[global] Instance result_bind : MBind result := fun A B k r =>
  match r with
  | inl e => inl e
  | inr a => k a
  end.

(** [l[i]] for a non-negative constant index. *)
Definition getitem {A : Type} (l : list A) (i : nat) : result A :=
  match l !! i with
  | Some x => inr x
  | None => inl IndexError
  end.

(** ** Python built-ins on [str] *)

Module Str.

(** [sub in s] *)
Fixpoint contains (sub s : string) : bool :=
  String.prefix sub s ||
  match s with
  | EmptyString => false
  | String _ s' => contains sub s'
  end.

(** [s.split(sep)] for a non-empty [sep]: the pieces between the leftmost
    non-overlapping occurrences of [sep].  [skip] counts the bytes of an
    occurrence still to be passed over, [cur] is the piece being read. *)
Fixpoint split_from (sep : string) (skip : nat) (cur s : string) : list string :=
  match s with
  | EmptyString => [cur]
  | String a s' =>
      match skip with
      | S k => split_from sep k cur s'
      | O =>
          if String.prefix sep s
          then cur :: split_from sep (String.length sep - 1) "" s'
          else split_from sep 0 (cur ++ String a "") s'
      end
  end.

Definition split (sep s : string) : list string := split_from sep 0 "" s.

(** [sep.join(l)] *)
Definition join (sep : string) (l : list string) : string := String.concat sep l.

(** [s.replace(old, new)] for a non-empty [old]. *)
Definition replace (old new s : string) : string := join new (split old s).

(** UTF-8 encoding of a code point below U+10000. *)
Definition utf8 (cp : N) : string :=
  let b (n : N) := ascii_of_N n in
  if (cp <? 128)%N then String (b cp) ""
  else if (cp <? 2048)%N then
    String (b (192 + cp / 64)%N) (String (b (128 + cp mod 64)%N) "")
  else
    String (b (224 + cp / 4096)%N)
      (String (b (128 + (cp / 64) mod 64)%N)
         (String (b (128 + cp mod 64)%N) "")).

(** The code points for which [str.isspace] holds. *)
Definition whitespace_code_points : list N :=
  [9; 10; 11; 12; 13; 28; 29; 30; 31; 32; 133; 160; 5760;
   8192; 8193; 8194; 8195; 8196; 8197; 8198; 8199; 8200; 8201; 8202;
   8232; 8233; 8239; 8287; 12288]%N.

Definition whitespace : list string := map utf8 whitespace_code_points.

(** [Some rest] when [s = p ++ rest]. *)
Fixpoint drop_prefix (p s : string) : option string :=
  match p, s with
  | EmptyString, _ => Some s
  | String a p', String b s' => if Ascii.eqb a b then drop_prefix p' s' else None
  | String _ _, EmptyString => None
  end.

Fixpoint drop_any (tokens : list string) (s : string) : option string :=
  match tokens with
  | [] => None
  | t :: tokens' =>
      match drop_prefix t s with
      | Some rest => Some rest
      | None => drop_any tokens' s
      end
  end.

Fixpoint drop_all (tokens : list string) (fuel : nat) (s : string) : string :=
  match fuel with
  | O => s
  | S fuel' =>
      match drop_any tokens s with
      | Some rest => drop_all tokens fuel' rest
      | None => s
      end
  end.

Definition rev (s : string) : string :=
  string_of_list_ascii (List.rev (list_ascii_of_string s)).

Definition lstrip (s : string) : string := drop_all whitespace (String.length s) s.

Definition rstrip (s : string) : string :=
  rev (drop_all (map rev whitespace) (String.length s) (rev s)).

(** [s.strip()] *)
Definition strip (s : string) : string := rstrip (lstrip s).

(** The code points of a string, [None] when the bytes are not UTF-8.
    [need] counts the continuation bytes still expected for the code point
    [cp] being read. *)
Fixpoint code_points_from (need : nat) (cp : N) (s : string) : option (list N) :=
  match s with
  | EmptyString => match need with O => Some [] | S _ => None end
  | String a s' =>
      let b := N_of_ascii a in
      match need with
      | O =>
          if (b <? 128)%N then cons b <$> code_points_from 0 0 s'
          else if (b <? 192)%N then None
          else if (b <? 224)%N then code_points_from 1 (b - 192) s'
          else if (b <? 240)%N then code_points_from 2 (b - 224) s'
          else if (b <? 248)%N then code_points_from 3 (b - 240) s'
          else None
      | S k =>
          if (128 <=? b)%N && (b <? 192)%N then
            let cp' := (cp * 64 + (b - 128))%N in
            match k with
            | O => cons cp' <$> code_points_from 0 0 s'
            | S _ => code_points_from k cp' s'
            end
          else None
      end
  end.

Definition code_points (s : string) : option (list N) := code_points_from 0 0 s.

(** The code points of the digit zero of every script: the ten digits of a
    script follow each other (Unicode 14, general category Nd). *)
Definition digit_zeros : list N :=
  [48; 1632; 1776; 1984; 2406; 2534; 2662; 2790; 2918; 3046; 3174; 3302; 3430;
   3558; 3664; 3792; 3872; 4160; 4240; 6112; 6160; 6470; 6608; 6784; 6800; 6992;
   7088; 7232; 7248; 42528; 43216; 43264; 43472; 43504; 43600; 44016; 65296;
   66720; 68912; 69734; 69872; 69942; 70096; 70384; 70736; 70864; 71248; 71360;
   71472; 71904; 72016; 72784; 73040; 73120; 92768; 92864; 93008; 120782;
   120792; 120802; 120812; 120822; 123200; 123632; 125264; 130032]%N.

(** The value of a decimal digit of any script. *)
Definition digit_value (cp : N) : option Z :=
  match List.find (fun z => (z <=? cp)%N && (cp <? z + 10)%N) digit_zeros with
  | Some z => Some (Z.of_N (cp - z))
  | None => None
  end.

(** The digits of an integer literal: decimal digits, single underscores
    allowed between two digits.  Returns the value and the digit count. *)
Fixpoint digits (acc count : Z) (after_digit : bool) (cps : list N) : option (Z * Z) :=
  match cps with
  | [] => if after_digit then Some (acc, count) else None
  | cp :: cps' =>
      if (cp =? 95)%N
      then if after_digit then digits acc count false cps' else None
      else match digit_value cp with
           | Some d => digits (10 * acc + d) (count + 1) true cps'
           | None => None
           end
  end.

(** [sys.get_int_max_str_digits()] *)
Definition max_str_digits : Z := 4300.

(** The white space [int] skips around a literal: the code points of
    [str.isspace] other than the separators U+001C to U+001F. *)
Definition int_space (cp : N) : bool :=
  bool_decide (cp ∈ whitespace_code_points) && negb ((28 <=? cp)%N && (cp <=? 31)%N).

Fixpoint drop_space (cps : list N) : list N :=
  match cps with
  | cp :: cps' => if int_space cp then drop_space cps' else cps
  | [] => []
  end.

(** [int(s, 10)]: surrounding white space, an optional sign, digits. *)
Definition int10 (s : string) : result Z :=
  match code_points s with
  | None => inl ValueError
  | Some cps =>
      let t := List.rev (drop_space (List.rev (drop_space cps))) in
      let '(negative, body) :=
        match t with
        | 45%N :: r => (true, r)
        | 43%N :: r => (false, r)
        | _ => (false, t)
        end in
      match digits 0 0 false body with
      | Some (v, count) =>
          if max_str_digits <? count then inl ValueError
          else inr (if negative then - v else v)
      | None => inl ValueError
      end
  end.

End Str.

(** [os.path.join(a, b)] on POSIX. *)
Definition os_path_join (a b : string) : string :=
  if String.prefix "/" b then b
  else if String.eqb a "" || String.prefix "/" (Str.rev a) then a ++ b
  else a ++ "/" ++ b.

(** ** [datetime.date] *)

Record date : Type := Date { year : Z; month : Z; day : Z }.

Definition is_leap (y : Z) : bool :=
  (y mod 4 =? 0) && (negb (y mod 100 =? 0) || (y mod 400 =? 0)).

Definition days_in_month (y m : Z) : Z :=
  if m =? 2 then (if is_leap y then 29 else 28)
  else if (m =? 4) || (m =? 6) || (m =? 9) || (m =? 11) then 30
  else 31.

(** Days in the year [y] before the first day of month [m]. *)
Definition days_before_month (y m : Z) : Z :=
  fold_right Z.add 0 (map (days_in_month y) (map Z.of_nat (seq 1 (Z.to_nat m - 1)))).

(** Days before January 1st of year [y]. *)
Definition days_before_year (y : Z) : Z :=
  let y' := y - 1 in y' * 365 + y' / 4 - y' / 100 + y' / 400.

Definition toordinal (d : date) : Z :=
  days_before_year (year d) + days_before_month (year d) (month d) + day d.

Definition fits_c_int (z : Z) : bool := (- 2147483648 <=? z) && (z <=? 2147483647).

(** [date(y, m, d)]: the constructor converts its arguments to C ints, then
    checks the ranges. *)
Definition mk_date (y m d : Z) : result date :=
  if negb (fits_c_int y && fits_c_int m && fits_c_int d) then inl OverflowError
  else if (1 <=? y) && (y <=? 9999) && (1 <=? m) && (m <=? 12)
          && (1 <=? d) && (d <=? days_in_month y m)
  then inr (Date y m d)
  else inl ValueError.

(** [(a - b).days] *)
Definition days_between (a b : date) : Z := toordinal a - toordinal b.

(** ** HTML documents and the three XPath queries *)

(** An [lxml] element: tag, attributes, the text before its first child
    ([None] when there is none) and its child elements. *)
Inductive element : Type :=
| Element (tag : string) (attrib : list (string * string))
          (text : option string) (children : list element).

Definition tag (e : element) : string := let 'Element t _ _ _ := e in t.
Definition attrib (e : element) : list (string * string) := let 'Element _ a _ _ := e in a.
Definition text (e : element) : option string := let 'Element _ _ t _ := e in t.
Definition getchildren (e : element) : list element := let 'Element _ _ _ c := e in c.

(** [e.get(name)] *)
Fixpoint get_attr (name : string) (attrs : list (string * string)) : option string :=
  match attrs with
  | [] => None
  | (k, v) :: attrs' => if String.eqb k name then Some v else get_attr name attrs'
  end.

Definition has_attr (name value : string) (e : element) : bool :=
  match get_attr name (attrib e) with
  | Some v => String.eqb v value
  | None => false
  end.

(** The elements of a document in document order. *)
Fixpoint iter (e : element) : list element :=
  match e with
  | Element _ _ _ cs => e :: flat_map iter cs
  end.

(** [tree.xpath('//t[@k="v"]/@a')]: attribute [a] of every element [t]
    whose attribute [k] is [v], in document order. *)
Definition xpath_attr (t k v a : string) (tree : element) : list string :=
  omap (fun e => get_attr a (attrib e))
       (List.filter (fun e => String.eqb (tag e) t && has_attr k v e) (iter tree)).

(** [tree.xpath('//form[@id="abnformpre"]/table/tr')]: the [tr] children of
    the [table] children of the marked forms, in document order.
    [in_form] says that the parent of [e] is such a form, [in_table] that it
    is a [table] child of one. *)
Fixpoint form_rows (in_form in_table : bool) (e : element) : list element :=
  match e with
  | Element t _ _ cs =>
      (if in_table && String.eqb t "tr" then [e] else []) ++
      flat_map (form_rows (String.eqb t "form" && has_attr "id" "abnformpre" e)
                          (in_form && String.eqb t "table")) cs
  end.

Definition xpath_loans (tree : element) : list element := form_rows false false tree.

(** ** JSON values and files *)

Inductive json : Type :=
| JNull
| JBool (b : bool)
| JInt (z : Z)
| JFloat (literal : string)
| JString (s : string)
| JList (l : list json)
| JObject (d : gmap string json).

(** What a file holds, up to the [json] codec: [Json v] is the text
    [json.dump(v, f)] writes and [json.load(f)] reads back as [v]; [Raw s] is
    text that [json.load] rejects. *)
Inductive file_data : Type :=
| Raw (s : string)
| Json (v : json).

Inductive node : Type :=
| File (content : file_data)
| Dir.

(** ** The process and its surroundings *)

(** A [requests.Response]: [text], [url] (the final URL after redirects) and
    the document [html.fromstring(text)] builds, [None] when it raises. *)
Record response : Type := Response {
  resp_text : string;
  resp_url : string;
  resp_tree : option element
}.

(** The portal: [None] is a transport failure. *)
Record portal : Type := Portal {
  http_get : string -> option response;
  http_post : string -> list (string * json) -> option response
}.

Record loan : Type := Loan {
  title : string;
  due_date : date;
  remaining_days : Z
}.

(** What the process does that can be seen from outside, in order. *)
Inductive event : Type :=
| Print (line : string)
| PrintFmt (template : string) (args : list json)
| Prompt (prompt : string)
| Get (url : string)
| Post (url : string) (data : list (string * json))
| PrintTable (field_names : list string) (rows : list loan).

Record world : Type := World {
  fs : gmap string node;
  trace : list event
}.

(** The fields of an [AbsysClient] object. *)
Record client : Type := Client {
  _creds : gmap string json;
  base : string
}.

Definition state : Type := world * client.

Inductive outcome (A : Type) : Type :=
| Ok (a : A) (s : state)
| Raise (e : exn) (w : world).
Arguments Ok {A} a s.
Arguments Raise {A} e w.

(** Computations of the client: state and exceptions. *)
Definition M (A : Type) : Type := state -> outcome A.

#[global] Instance M_ret : MRet M := fun A a s => Ok a s.
#[global] Instance M_bind : MBind M := fun A B k m s =>
  match m s with
  | Ok a s' => k a s'
  | Raise e w => Raise e w
  end.

Definition raise {A : Type} (e : exn) : M A := fun s => Raise e (fst s).

Definition try {A : Type} (r : result A) : M A :=
  match r with
  | inl e => raise e
  | inr a => mret a
  end.

Definition emit (ev : event) : M unit := fun s =>
  Ok tt (World (fs (fst s)) (trace (fst s) ++ [ev]), snd s).

Definition self : M client := fun s => Ok (snd s) s.
Definition the_world : M world := fun s => Ok (fst s) s.
Definition set_creds (d : gmap string json) : M unit := fun s =>
  Ok tt (fst s, Client d (base (snd s))).
Definition set_base (b : string) : M unit := fun s =>
  Ok tt (fst s, Client (_creds (snd s)) b).
Definition set_fs (f : gmap string node) : M unit := fun s =>
  Ok tt (World f (trace (fst s)), snd s).

(** *** The file system calls of the source *)

(** **** Paths

    A path names a node by its spelling: the disk is one on which no node
    has two names (no links, no [.] or [..], no repeated slash).  The root
    always exists and a relative path starts in the current directory, which
    always exists too. *)

Definition is_slash (a : ascii) : bool := Ascii.eqb a "/".

Fixpoint all_slashes (s : string) : bool :=
  match s with
  | EmptyString => true
  | String a s' => is_slash a && all_slashes s'
  end.

(** [s.rstrip('/')] *)
Fixpoint rstrip_slashes (s : string) : string :=
  match s with
  | EmptyString => EmptyString
  | String a s' =>
      match rstrip_slashes s' with
      | EmptyString => if is_slash a then EmptyString else String a EmptyString
      | r => String a r
      end
  end.

(** [p[:i], p[i:]] for [i = p.rfind('/') + 1]: [head] is what has been read
    up to the last slash, [cur] what has been read since. *)
Fixpoint split_last (head cur s : string) : string * string :=
  match s with
  | EmptyString => (head, cur)
  | String a s' =>
      if is_slash a then split_last (head ++ cur ++ "/") "" s'
      else split_last head (cur ++ String a "") s'
  end.

(** [posixpath.split(p)] *)
Definition posixpath_split (p : string) : string * string :=
  let '(head, tail) := split_last "" "" p in
  (if negb (String.eqb head "") && negb (all_slashes head) then rstrip_slashes head else head,
   tail).

(** The first two lines of [os.makedirs]: the directory a name lies in and
    its last component, a trailing slash being passed over. *)
Definition leaf_split (name : string) : string * string :=
  let '(head, tail) := posixpath_split name in
  if String.eqb tail "" then posixpath_split head else (head, tail).

(** [os.stat(path)] as far as the kind of node goes. *)
Definition stat (f : gmap string node) (path : string) : option node :=
  if negb (String.eqb path "") && all_slashes path then Some Dir else f !! path.

(** [os.mkdir(path)] *)
Definition os_mkdir (path : string) : M unit :=
  w ← the_world;
  match stat (fs w) path with
  | Some _ => raise FileExistsError
  | None =>
      if String.eqb path "" then raise FileNotFoundError
      else
        let parent := fst (leaf_split path) in
        if String.eqb parent "" then set_fs (<[path := Dir]> (fs w))
        else match stat (fs w) parent with
             | Some Dir => set_fs (<[path := Dir]> (fs w))
             | Some (File _) => raise NotADirectoryError
             | None => raise FileNotFoundError
             end
  end.

(** The last statement of [os.makedirs(name, exist_ok=True)]: [mkdir], its
    error being passed over when the name is a directory. *)
Definition mkdir_exist_ok (name : string) : M unit := fun s =>
  match os_mkdir name s with
  | Raise e w =>
      match stat (fs w) name with
      | Some Dir => Ok tt (w, snd s)
      | _ => Raise e w
      end
  | ok => ok
  end.

(** [os.makedirs(name, exist_ok=True)]: the directory the name lies in is
    made first when it is missing, a [FileExistsError] of that call being
    passed over.  Each call is on a shorter name, so that [fuel], the length
    of the name, is never used up ([os_makedirs_unfold] below). *)
Fixpoint makedirs (fuel : nat) (name : string) : M unit := fun s =>
  let '(head, tail) := leaf_split name in
  let missing :=
    negb (String.eqb head "") && negb (String.eqb tail "") &&
    match stat (fs (fst s)) head with Some _ => false | None => true end in
  let last (s' : state) : outcome unit :=
    if String.eqb tail "." then Ok tt s' else mkdir_exist_ok name s' in
  match fuel with
  | S fuel' =>
      if missing then
        match makedirs fuel' head s with
        | Ok _ s' => last s'
        | Raise FileExistsError w => last (w, snd s)
        | Raise e w => Raise e w
        end
      else mkdir_exist_ok name s
  | O => mkdir_exist_ok name s
  end.

Definition os_makedirs (path : string) : M unit := makedirs (String.length path) path.

(** [os.unlink(path)] *)
Definition os_unlink (path : string) : M unit :=
  w ← the_world;
  match fs w !! path with
  | None => raise FileNotFoundError
  | Some Dir => raise IsADirectoryError
  | Some (File _) => set_fs (delete path (fs w))
  end.

(** [json.load(open(path, 'r'))] *)
Definition json_load (path : string) : M json :=
  w ← the_world;
  match fs w !! path with
  | None => raise FileNotFoundError
  | Some Dir => raise IsADirectoryError
  | Some (File (Raw _)) => raise JSONDecodeError
  | Some (File (Json v)) => mret v
  end.

(** [json.dump(v, open(path, 'w+'))].  The one path the program opens for
    writing lies in [CONFIG_DIR], after [os.makedirs] has returned. *)
Definition json_dump (v : json) (path : string) : M unit :=
  w ← the_world;
  match fs w !! path with
  | Some Dir => raise IsADirectoryError
  | _ => set_fs (<[path := File (Json v)]> (fs w))
  end.

Definition os_path_exists (path : string) : M bool :=
  w ← the_world; mret (bool_decide (is_Some (fs w !! path))).

(** ** [class AbsysClient] *)

Definition ABNETSYS_BASE : string := "https://catalogobiblioteca.uclm.es/cgi-bin/abnetopac".

(** The module docstring, printed as the usage text. *)
Definition __doc__ : string := "
Usage: absystool COMMAND

Client for the AbsysNET library catalog

absystool login
    Authenticates the AbsysNET client

absystool logout
    Deletes stored session data for AbsysNET

absystool status
    Checks AbsysNET client status

Report bugs to <http://github.com/anpep/absystool>
".

Section AbsysClient.

(** The portal answering the requests, the value of [date.today()] and the
    class attribute [CONFIG_DIR]. *)
Variable net : portal.
Variable today : date.
Variable CONFIG_DIR : string.

(** [AbsysClient()] *)
Definition __init__ : client := Client ∅ ABNETSYS_BASE.

(** [requests.get(url)] *)
Definition requests_get (url : string) : M response :=
  emit (Get url);;
  match http_get net url with
  | Some r => mret r
  | None => raise RequestException
  end.

(** [requests.post(url, data=data)] *)
Definition requests_post (url : string) (data : list (string * json)) : M response :=
  emit (Post url data);;
  match http_post net url data with
  | Some r => mret r
  | None => raise RequestException
  end.

(** [html.fromstring(res.text)] *)
Definition html_fromstring (res : response) : M element :=
  match resp_tree res with
  | Some tree => mret tree
  | None => raise ParserError
  end.

(** [v['auth_id']] followed by [ABNETSYS_BASE + '/' + ...], for the value
    [v] that [json.load] returned: the subscript needs a dict holding the
    key, the concatenation needs a [str]. *)
Definition session_base (v : json) : result (gmap string json * string) :=
  match v with
  | JObject d =>
      match d !! "auth_id" with
      | None => inl (KeyError "auth_id")
      | Some (JString auth_id) => inr (d, ABNETSYS_BASE ++ "/" ++ auth_id)
      | Some _ => inl TypeError
      end
  | _ => inl TypeError
  end.

Definition _load_credentials : M unit :=
  let creds_path := os_path_join CONFIG_DIR "authid" in
  present ← os_path_exists creds_path;
  if present : bool then
    v ← json_load creds_path;
    '(d, b) ← try (session_base v);
    set_creds d;;
    set_base b
  else mret tt.

Definition _save_credentials (auth_id user_id : string) : M unit :=
  let creds_path := os_path_join CONFIG_DIR "authid" in
  os_makedirs CONFIG_DIR;;
  c ← self;
  set_creds (<["user_id" := JString user_id]> (<["auth_id" := JString auth_id]> (_creds c)));;
  c ← self;
  json_dump (JObject (_creds c)) creds_path;;
  set_base (ABNETSYS_BASE ++ "/" ++ auth_id).

Definition login_form (user password : string) : list (string * json) :=
  [("FBC", JInt 316); ("NAC", JInt 317); ("ACC", JInt 201);
   ("leid", JString user); ("lepass", JString password)].

(** The redirect path of the index page: lines 87 to 89. *)
Definition index_path (tree : element) : result string :=
  content ← getitem (xpath_attr "meta" "http-equiv" "Refresh" "content" tree) 0;
  target ← getitem (Str.split "URL=" content) 1;
  path ← getitem (Str.split "?" target) 0;
  mret (Str.replace "/cgi-bin/abnetopac" "" path).

(** The display name of a page: the anchor title after the marker. *)
Definition display_name (tree : element) : result string :=
  title ← getitem (xpath_attr "a" "id" "lecidentify" "title" tree) 0;
  getitem (Str.split "Cerrar sesión " title) 1.

(** The session token of the URL the login ended on: line 108. *)
Definition session_token (url : string) : result string :=
  rest ← getitem (Str.split "abnetopac/" url) 1;
  getitem (Str.split "/NT1" rest) 0.

(** [login]: [tty] holds the lines the user will type, the answer to
    [input] first and the answer to [getpass] second, for each attempt.
    Reading past the last line raises [EOFError]. *)
Fixpoint login (tty : list string) : M unit :=
  emit (Prompt "UCLM user: ");;
  match tty with
  | [] => raise EOFError
  | user :: tty' =>
      emit (Prompt ("password for " ++ user ++ ": "));;
      match tty' with
      | [] => raise EOFError
      | password :: rest =>
          set_base ABNETSYS_BASE;;
          c ← self;
          res0 ← requests_get (base c);
          tree ← html_fromstring res0;
          path ← try (index_path tree);
          c ← self;
          res ← requests_post (base c ++ path ++ "/NT1") (login_form user password);
          if Str.contains "incorrecta" (resp_text res) then login rest
          else
            tree ← html_fromstring res;
            name ← try (display_name tree);
            emit (PrintFmt "successfully authenticated as {} ({})"
                           [JString user; JString name]);;
            auth_id ← try (session_token (resp_url res));
            _save_credentials auth_id user
      end
  end.

Definition _ensure_auth (tty : list string) : M unit :=
  _load_credentials;;
  c ← self;
  if bool_decide (_creds c !! "auth_id" = None) then login tty
  else
    res ← requests_get (base c);
    if Str.contains "/abnetopac/timeout.html" (resp_text res) then
      emit (Print "Previous session expired");;
      set_creds ∅;;
      login tty
    else mret tt.

Definition logout : M unit :=
  c ← self;
  if bool_decide (_creds c !! "auth_id" = None) then emit (Print "not authenticated")
  else os_unlink (os_path_join CONFIG_DIR "authid").

Definition status (tty : list string) : M unit :=
  _ensure_auth tty;;
  c ← self;
  res ← requests_get (base c ++ "/NT1?ACC=101");
  tree ← html_fromstring res;
  name ← try (display_name tree);
  c ← self;
  match _creds c !! "user_id" with
  | None => raise (KeyError "user_id")
  | Some user_id => emit (PrintFmt "authenticated as {} ({})" [user_id; JString name])
  end.

(** [e.text.strip()] *)
Definition text_strip (e : element) : result string :=
  match text e with
  | None => inl AttributeError
  | Some s => inr (Str.strip s)
  end.

(** The body of the loop of [list]: lines 129 to 133. *)
Definition loan_of_row (row : element) : result loan :=
  cell ← getitem (getchildren row) 2;
  title ← text_strip cell;
  cell ← getitem (getchildren row) 3;
  stripped ← text_strip cell;
  let due_date := Str.split "/" stripped in
  y ← getitem due_date 2;
  y ← Str.int10 y;
  m ← getitem due_date 1;
  m ← Str.int10 m;
  d ← getitem due_date 0;
  d ← Str.int10 d;
  due_date ← mk_date y m d;
  mret (Loan title due_date (days_between due_date today)).

(** The loop of [list]: the rows in order, stopping at the first exception. *)
Fixpoint loans_of_rows (rows : list element) : result (list loan) :=
  match rows with
  | [] => inr []
  | row :: rows' =>
      l ← loan_of_row row;
      ls ← loans_of_rows rows';
      mret (l :: ls)
  end.

Definition list_ (tty : list string) : M unit :=
  _ensure_auth tty;;
  c ← self;
  res ← requests_get (base c ++ "/NT29?ACC=210");
  tree ← html_fromstring res;
  let loans := drop 1 (xpath_loans tree) in
  table ← try (loans_of_rows loans);
  emit (PrintTable ["Title"; "Due date"; "Remaining"] table).

End AbsysClient.

(** The dispatcher.  [HOME] is [os.environ.get('HOME')]: the class body reads
    [os.environ['HOME']] when the module is loaded. *)
Definition main (HOME : option string) (net : portal) (today : date)
    (argv tty : list string) (w : world) : outcome unit :=
  match HOME with
  | None => Raise (KeyError "HOME") w
  | Some home =>
      let CONFIG_DIR := os_path_join home ".config/absystool" in
      match argv !! 1%nat with
      | None => emit (Print __doc__) (w, __init__)
      | Some cmd =>
          if String.eqb cmd "login" then login net CONFIG_DIR tty (w, __init__)
          else if String.eqb cmd "logout" then logout CONFIG_DIR (w, __init__)
          else if String.eqb cmd "status" then status net CONFIG_DIR tty (w, __init__)
          else if String.eqb cmd "list" then list_ net today CONFIG_DIR tty (w, __init__)
          else emit (Print __doc__) (w, __init__)
      end
  end.

(** * A sample portal

    A portal with one account, used to run the client on concrete inputs. *)
Module Sample.

Definition HOME : string := "/home/alice".
Definition CONFIG_DIR : string := "/home/alice/.config/absystool".
Definition creds_path : string := "/home/alice/.config/absystool/authid".
Definition token : string := "O7046/ID5f3a".
Definition session : string := ABNETSYS_BASE ++ "/" ++ token.

Definition page (body : list element) : element :=
  Element "html" [] None [Element "body" [] None body].

Definition index_tree : element :=
  Element "html" [] None
    [Element "head" [] None
       [Element "meta"
          [("http-equiv", "Refresh");
           ("content", "0;URL=/cgi-bin/abnetopac/O7046/ID5f3a?ACC=101")] None []]].

Definition anchor (title : string) : element :=
  Element "a" [("id", "lecidentify"); ("title", title)] (Some "Salir") [].

Definition cell (s : string) : element := Element "td" [] (Some s) [].

Definition row (cells : list string) : element := Element "tr" [] None (map cell cells).

Definition loans_tree (rows : list element) : element :=
  page [anchor "Cerrar sesión Jane Doe";
        Element "form" [("id", "abnformpre")] None [Element "table" [] None rows]].

Definition header : element := row ["#"; "Copy"; "Title"; "Due"].

Definition two_loans : list element :=
  [header;
   row ["1"; "A-1"; " Don Quijote "; "01/01/2024"];
   row ["2"; "B-7"; "La Regenta"; "15/02/2024"]].

Definition welcome : response :=
  Response "<a id=lecidentify title='Cerrar sesión Jane Doe'>Salir</a>"
           (session ++ "/NT1")
           (Some (page [anchor "Cerrar sesión Jane Doe"])).

Definition rejected : response :=
  Response "Identificación incorrecta" (session ++ "/NT1")
           (Some (page [Element "p" [] (Some "Identificación incorrecta") []])).

Definition html (body : string) (tree : element) : response :=
  Response body "" (Some tree).

(** The account is [alice] with password [secret].  [index] answers the
    portal root, [probe] is the body of the session root, [account] is the
    page shown to the user once identified and [loans] the rows of the
    loans table. *)
Definition portal_with (index : response) (probe : string) (account : response)
    (loans : list element) : portal :=
  Portal
    (fun url =>
       if String.eqb url ABNETSYS_BASE then Some index
       else if String.eqb url session then
         Some (html probe (page [Element "p" [] (Some probe) []]))
       else if String.eqb url (session ++ "/NT1?ACC=101") then Some account
       else if String.eqb url (session ++ "/NT29?ACC=210") then
         Some (html "<form id=abnformpre>" (loans_tree loans))
       else None)
    (fun url data =>
       match data with
       | [_; _; _; (_, JString "alice"); (_, JString "secret")] => Some account
       | _ => Some rejected
       end).

Definition index : response := html "<meta http-equiv=Refresh>" index_tree.

Definition net : portal := portal_with index "<html>catalogo</html>" welcome two_loans.

(** The portal answers every page with a maintenance notice. *)
Definition maintenance_tree : element :=
  page [Element "p" [] (Some "En mantenimiento") []].

Definition maintenance : response := html "En mantenimiento" maintenance_tree.

(** The session root shows the timeout page. *)
Definition expired : portal :=
  portal_with index "<a href=/abnetopac/timeout.html>" welcome two_loans.

Definition today : date := Date 2024 1 10.

Definition record (auth_id user_id : string) : gmap string json :=
  <["user_id" := JString user_id]> (<["auth_id" := JString auth_id]> ∅).

Definition empty_disk : world := World ∅ [].

(** The directories [CONFIG_DIR] lies in, and with [CONFIG_DIR] itself. *)
Definition parents : gmap string node :=
  <["/home/alice/.config" := Dir]> (<["/home/alice" := Dir]> (<["/home" := Dir]> ∅)).

Definition dirs : gmap string node := <[CONFIG_DIR := Dir]> parents.

Definition logged_in : world :=
  World (<[creds_path := File (Json (JObject (record token "alice")))]> dirs) [].

Definition disk (content : file_data) : world :=
  World (<[creds_path := File content]> dirs) [].

(** A record that lacks [user_id]. *)
Definition partial_record : gmap string json := <["auth_id" := JString token]> ∅.

End Sample.

(** * Properties of pages and runs

    The vocabulary in which the theorems below are stated. *)

(** No [meta] element announces a refresh. *)
Definition meta_refresh_absent (tree : element) : Prop :=
  xpath_attr "meta" "http-equiv" "Refresh" "content" tree = [].

(** No anchor [lecidentify] carries a title with the logout pattern. *)
Definition anchor_absent (tree : element) : Prop :=
  Forall (fun title => Str.contains "Cerrar sesión " title = false)
         (xpath_attr "a" "id" "lecidentify" "title" tree).

(** The URL the login ended on has no session marker. *)
Definition url_marker_absent (url : string) : Prop :=
  Str.contains "abnetopac/" url = false.




(** The events of one login attempt up to its POST. *)
Definition attempt_events (user password path : string) : list event :=
  [Prompt "UCLM user: "; Prompt ("password for " ++ user ++ ": ");
   Get ABNETSYS_BASE;
   Post (ABNETSYS_BASE ++ path ++ "/NT1") (login_form user password)].


(** The operations that read a name or a token out of a page. *)
Inductive extraction : Type := ExLogin | ExStatus.

Section Properties.

Variable net : portal.
Variable today : date.
Variable CONFIG_DIR : string.

(** The index page redirects to [path]. *)
Definition redirect_ok (path : string) : Prop :=
  ∃ res0 tree, http_get net ABNETSYS_BASE = Some res0 ∧
               resp_tree res0 = Some tree ∧ index_path tree = inr path.

(** The portal answers the login form of [user] with [res]. *)
Definition answered (user password : string) (res : response) : Prop :=
  ∃ path, redirect_ok path ∧
          http_post net (ABNETSYS_BASE ++ path ++ "/NT1") (login_form user password) = Some res.

(** The lines typed lead [login] to a page that lacks an expected node:
    at the first attempt, or after rejected attempts. *)
Inductive login_mismatch : list string -> Prop :=
| mismatch_meta user password rest res0 tree :
    http_get net ABNETSYS_BASE = Some res0 ->
    resp_tree res0 = Some tree ->
    meta_refresh_absent tree ->
    login_mismatch (user :: password :: rest)
| mismatch_anchor user password rest res tree :
    answered user password res ->
    Str.contains "incorrecta" (resp_text res) = false ->
    resp_tree res = Some tree ->
    anchor_absent tree ->
    login_mismatch (user :: password :: rest)
| mismatch_url user password rest res tree name :
    answered user password res ->
    Str.contains "incorrecta" (resp_text res) = false ->
    resp_tree res = Some tree ->
    display_name tree = inr name ->
    url_marker_absent (resp_url res) ->
    login_mismatch (user :: password :: rest)
| mismatch_later user password rest res :
    answered user password res ->
    Str.contains "incorrecta" (resp_text res) = true ->
    login_mismatch rest ->
    login_mismatch (user :: password :: rest).

(** The session is resolved and the status page lacks the anchor. *)
Definition status_mismatch (tty : list string) (s : state) : Prop :=
  ∃ s1 res tree,
    _ensure_auth net CONFIG_DIR tty s = Ok tt s1 ∧
    http_get net (base (snd s1) ++ "/NT1?ACC=101") = Some res ∧
    resp_tree res = Some tree ∧ anchor_absent tree.

Definition extract (op : extraction) (tty : list string) : M unit :=
  match op with
  | ExLogin => login net CONFIG_DIR tty
  | ExStatus => status net CONFIG_DIR tty
  end.

Definition structure_mismatch (op : extraction) (tty : list string) (s : state) : Prop :=
  match op with
  | ExLogin => login_mismatch tty
  | ExStatus => status_mismatch tty s
  end.

(** What the source reads out of a well-formed row: third cell stripped,
    fourth cell split at the slashes into day, month and year. *)
Definition row_denotes (row : element) (l : loan) : Prop :=
  ∃ c3 t3 c4 t4 sd sm sy more d m y,
    getchildren row !! 2%nat = Some c3 ∧ text c3 = Some t3 ∧
    getchildren row !! 3%nat = Some c4 ∧ text c4 = Some t4 ∧
    Str.split "/" (Str.strip t4) = sd :: sm :: sy :: more ∧
    Str.int10 sd = inr d ∧ Str.int10 sm = inr m ∧ Str.int10 sy = inr y ∧
    mk_date y m d = inr (Date y m d) ∧
    l = Loan (Str.strip t3) (Date y m d) (toordinal (Date y m d) - toordinal today).

(** The stored record is one [_load_credentials] accepts: a JSON object
    whose [auth_id] is a string. *)
Definition usable (content : file_data) : Prop :=
  ∃ d a, content = Json (JObject d) ∧ d !! "auth_id" = Some (JString a).

End Properties.

(** * Effects of a run

    The vocabulary of the properties that hold for every run, whether it
    returns or raises. *)

(** The world a run ends in. *)
Definition final_world {A : Type} (o : outcome A) : world :=
  match o with
  | Ok _ s => fst s
  | Raise _ w => w
  end.

(** A request, if the event is one, goes to a URL of the portal. *)
Definition to_portal (ev : event) : Prop :=
  match ev with
  | Get url | Post url _ => String.prefix ABNETSYS_BASE url = true
  | _ => True
  end.

(** [w'] continues [w]: it has seen the same events, then requests to the
    portal and output only. *)
Definition extends (w w' : world) : Prop :=
  ∃ evs, trace w' = (trace w ++ evs)%list ∧ Forall to_portal evs.

(** The record [{auth_id, user_id}] added to the dict [creds]. *)
Definition with_session (creds : gmap string json) (auth_id user_id : string)
  : gmap string json :=
  <["user_id" := JString user_id]> (<["auth_id" := JString auth_id]> creds).

(** [f'] is [f] with directories added whose names are initial parts of
    [name]. *)
Definition grown (name : string) (f f' : gmap string node) : Prop :=
  ∀ p, f' !! p = f !! p ∨
       (f !! p = None ∧ f' !! p = Some Dir ∧ String.prefix p name = true).

(** How a run that starts with the credentials [creds] in memory may change
    the file system: not at all, by making [CONFIG_DIR] and the directories
    it lies in, or by writing the record of a session into the credentials
    file as well. *)
Inductive stored (CONFIG_DIR : string) (creds : gmap string json)
    (f f' : gmap string node) : Prop :=
| stored_nothing : f' = f -> stored CONFIG_DIR creds f f'
| stored_dirs : grown CONFIG_DIR f f' -> stored CONFIG_DIR creds f f'
| stored_record auth_id user_id f1 :
    grown CONFIG_DIR f f1 ->
    f' = <[os_path_join CONFIG_DIR "authid" :=
             File (Json (JObject (with_session creds auth_id user_id)))]> f1 ->
    stored CONFIG_DIR creds f f'.

(** Induction on a document, with the hypothesis for every child. *)
Fixpoint element_rect' (P : element -> Prop)
    (step : ∀ t a x cs, Forall P cs -> P (Element t a x cs)) (e : element) : P e :=
  match e with
  | Element t a x cs =>
      step t a x cs
        ((fix children (l : list element) : Forall P l :=
            match l with
            | [] => @List.Forall_nil _ P
            | c :: l' => @List.Forall_cons _ P c l' (element_rect' P step c) (children l')
            end) cs)
  end.

(** A date that [date(...)] builds. *)
Definition valid_date (d : date) : Prop := mk_date (year d) (month d) (day d) = inr d.

(** [a] is a day before [b]. *)
Definition date_lt (a b : date) : Prop :=
  year a < year b ∨
  (year a = year b ∧ (month a < month b ∨ (month a = month b ∧ day a < day b))).

(** The proper suffixes of a string, longest first. *)
Fixpoint tails (s : string) : list string :=
  match s with
  | EmptyString => []
  | String _ s' => s' :: tails s'
  end.

(** No proper non-empty suffix of [sep] is a prefix of it: two occurrences of
    [sep] cannot overlap. *)
Definition borderless (sep : string) : bool :=
  forallb (fun t => String.eqb t "" || negb (String.prefix t sep)) (tails sep).

(** * Proofs *)

#[local] Arguments os_path_join : simpl never.

(** Unfolds the primitive actions of [M]. *)
Ltac unfold_M :=
  unfold os_path_exists, json_load, json_dump, os_unlink,
    set_creds, set_base, set_fs, self, the_world, emit, try, raise,
    mbind, M_bind, mret, M_ret in *.

(** Simplifies a run without unfolding the operations of the client. *)
Ltac step :=
  cbn -[ABNETSYS_BASE login index_path display_name session_token
        _save_credentials _load_credentials _ensure_auth loans_of_rows xpath_loans];
  rewrite <- ?app_assoc; cbn [app].

(** Induction on a list two elements at a time, as [login] consumes it. *)
Lemma pair_ind {A : Type} (P : list A -> Prop) :
  P [] -> (∀ x, P [x]) -> (∀ x y l, P l -> P (x :: y :: l)) -> ∀ l, P l.
Proof.
  intros H0 H1 H2 l.
  assert (both : P l ∧ ∀ x, P (x :: l)).
  { induction l as [|y l [IHl IHxl]]; split; auto. }
  apply both.
Qed.

(** ** Strings *)

Lemma append_cons (x : ascii) (a b : string) :
  (String x a ++ b = String x (a ++ b))%string.
Proof. reflexivity. Qed.

Lemma append_nil_r (a : string) : (a ++ "")%string = a.
Proof. induction a as [|x a IH]; [reflexivity | rewrite append_cons, IH; reflexivity]. Qed.

Lemma append_assoc (a b c : string) : ((a ++ b) ++ c = a ++ (b ++ c))%string.
Proof.
  induction a as [|x a IH]; [reflexivity | rewrite !append_cons, IH; reflexivity].
Qed.

Lemma split_from_no_sep (sep : string) (s cur : string) :
  Str.contains sep s = false -> Str.split_from sep 0 cur s = [(cur ++ s)%string].
Proof.
  revert cur. induction s as [|a s IH]; intros cur H.
  - cbn [Str.split_from]. now rewrite append_nil_r.
  - cbn [Str.contains] in H. apply orb_false_iff in H as [Hp Hc].
    cbn [Str.split_from]. rewrite Hp, (IH _ Hc), append_assoc. reflexivity.
Qed.

(** Splitting at a separator that does not occur yields the string itself. *)
Lemma split_no_sep (sep s : string) :
  Str.contains sep s = false -> Str.split sep s = [s].
Proof. intros H. unfold Str.split. now rewrite split_from_no_sep. Qed.

(** ** Integers *)

(** [int] reads the decimal digits of every script, with single underscores
    between them. *)
Example int10_any_script :
  Str.int10 ("1" ++ Str.utf8 1635 ++ "_" ++ Str.utf8 65305) = inr 139.
Proof. vm_compute. reflexivity. Qed.

(** [int] skips the white space of [str.isspace] around the literal, but not
    the separators U+001C to U+001F, which [str.strip] removes. *)
Example int10_white_space :
  Str.int10 (Str.utf8 160 ++ "-07" ++ Str.utf8 8195) = inr (-7) ∧
  Str.strip ("07" ++ Str.utf8 28) = "07" ∧
  Str.int10 ("07" ++ Str.utf8 28) = inl ValueError.
Proof. split; [|split]; vm_compute; reflexivity. Qed.

(** ** Pages *)

Lemma index_path_absent (tree : element) :
  meta_refresh_absent tree -> index_path tree = inl IndexError.
Proof. unfold meta_refresh_absent, index_path. intros ->. reflexivity. Qed.

Lemma display_name_absent (tree : element) :
  anchor_absent tree -> display_name tree = inl IndexError.
Proof.
  unfold anchor_absent, display_name. intros H.
  destruct (xpath_attr "a" "id" "lecidentify" "title" tree) as [|title titles]; [reflexivity|].
  apply Forall_cons in H as [H _]. cbn. rewrite split_no_sep by exact H. reflexivity.
Qed.

Lemma session_token_absent (url : string) :
  url_marker_absent url -> session_token url = inl IndexError.
Proof.
  unfold url_marker_absent, session_token. intros H. cbn.
  rewrite split_no_sep by exact H. reflexivity.
Qed.

(** ** Paths and directories *)

Lemma prefix_app (a b : string) : String.prefix a (a ++ b) = true.
Proof.
  induction a as [|x a IH]; [destruct b; reflexivity|].
  rewrite append_cons. cbn [String.prefix].
  destruct (ascii_dec x x) as [_|Hne]; [exact IH | contradiction].
Qed.

Lemma length_append (a b : string) :
  String.length (a ++ b) = (String.length a + String.length b)%nat.
Proof.
  induction a as [|x a IH]; [reflexivity|].
  rewrite append_cons. cbn [String.length]. rewrite IH. reflexivity.
Qed.

Lemma prefix_rest (a b : string) : String.prefix a b = true -> ∃ r, b = (a ++ r)%string.
Proof.
  revert b. induction a as [|x a IH]; intros b H; [exists b; reflexivity|].
  destruct b as [|y b]; [discriminate|]. cbn [String.prefix] in H.
  destruct (ascii_dec x y) as [->|]; [|discriminate].
  destruct (IH _ H) as [r ->]. exists r. reflexivity.
Qed.

Lemma prefix_trans (a b c : string) :
  String.prefix a b = true -> String.prefix b c = true -> String.prefix a c = true.
Proof.
  intros [r ->]%prefix_rest [r' ->]%prefix_rest. rewrite append_assoc. apply prefix_app.
Qed.

Lemma prefix_length (a b : string) :
  String.prefix a b = true -> (String.length a <= String.length b)%nat.
Proof. intros [r ->]%prefix_rest. rewrite length_append. lia. Qed.

Lemma rstrip_slashes_prefix (s : string) : String.prefix (rstrip_slashes s) s = true.
Proof.
  induction s as [|a s IH]; [reflexivity|]. cbn [rstrip_slashes].
  destruct (rstrip_slashes s) as [|b r].
  - destruct (is_slash a); [reflexivity|]. cbn [String.prefix].
    destruct (ascii_dec a a); [destruct s; reflexivity | contradiction].
  - cbn [String.prefix] in *. destruct (ascii_dec a a); [exact IH | contradiction].
Qed.

Lemma split_last_prefix (s head cur h t : string) :
  split_last head cur s = (h, t) -> String.prefix h (head ++ cur ++ s) = true.
Proof.
  revert head cur. induction s as [|a s IH]; intros head cur H; cbn [split_last] in H.
  - injection H as <- <-. apply prefix_app.
  - destruct (is_slash a) eqn:Ha.
    + apply IH in H. unfold is_slash in Ha. apply Ascii.eqb_eq in Ha as ->.
      change ("" ++ s)%string with s in H.
      change (String "/" s) with ("/" ++ s)%string.
      rewrite <- !append_assoc. rewrite <- !append_assoc in H. exact H.
    + apply IH in H. change (String a s) with (String a "" ++ s)%string.
      rewrite <- !append_assoc. rewrite <- !append_assoc in H. exact H.
Qed.

Lemma posixpath_split_prefix (p h t : string) :
  posixpath_split p = (h, t) -> String.prefix h p = true.
Proof.
  unfold posixpath_split. destruct (split_last "" "" p) as [h0 t0] eqn:E.
  apply split_last_prefix in E. change ("" ++ "" ++ p)%string with p in E.
  intros [= <- <-]. destruct (_ && _); [|exact E].
  exact (prefix_trans _ _ _ (rstrip_slashes_prefix h0) E).
Qed.

(** The directory a name lies in is spelled by an initial part of the name. *)
Lemma leaf_split_prefix (name h t : string) :
  leaf_split name = (h, t) -> String.prefix h name = true.
Proof.
  unfold leaf_split. destruct (posixpath_split name) as [h0 t0] eqn:E.
  apply posixpath_split_prefix in E. destruct (String.eqb t0 "").
  - intros H%posixpath_split_prefix. exact (prefix_trans _ _ _ H E).
  - intros [= <- <-]. exact E.
Qed.

Lemma split_last_length (s head cur h t : string) :
  split_last head cur s = (h, t) ->
  (String.length h + String.length t =
   String.length head + String.length cur + String.length s)%nat.
Proof.
  revert head cur. induction s as [|a s IH]; intros head cur H; cbn [split_last] in H.
  - injection H as <- <-. cbn [String.length]. lia.
  - destruct (is_slash a); apply IH in H; rewrite ?length_append in H;
      cbn [String.length] in *; lia.
Qed.

Lemma posixpath_split_length (p h t : string) :
  posixpath_split p = (h, t) -> (String.length h + String.length t <= String.length p)%nat.
Proof.
  unfold posixpath_split. destruct (split_last "" "" p) as [h0 t0] eqn:E.
  apply split_last_length in E. cbn [String.length] in E. intros [= <- <-].
  destruct (_ && _); [|lia].
  pose proof (prefix_length _ _ (rstrip_slashes_prefix h0)). lia.
Qed.

(** The directory a name lies in has a shorter name. *)
Lemma leaf_split_length (name h t : string) :
  leaf_split name = (h, t) -> (String.length h + String.length t <= String.length name)%nat.
Proof.
  unfold leaf_split. destruct (posixpath_split name) as [h0 t0] eqn:E.
  apply posixpath_split_length in E. destruct (String.eqb t0 "").
  - intros H%posixpath_split_length. lia.
  - intros [= <- <-]. exact E.
Qed.

Lemma stat_None (f : gmap string node) (p : string) : stat f p = None -> f !! p = None.
Proof. unfold stat. destruct (_ && _); [discriminate | auto]. Qed.

Lemma grown_refl (name : string) (f : gmap string node) : grown name f f.
Proof. intros p. left. reflexivity. Qed.

Lemma grown_insert (name : string) (f : gmap string node) :
  f !! name = None -> grown name f (<[name := Dir]> f).
Proof.
  intros H p. destruct (decide (p = name)) as [->|Hne].
  - right. rewrite lookup_insert_eq. repeat split; [exact H | rewrite <- (append_nil_r name) at 2; apply prefix_app].
  - left. apply lookup_insert_ne. congruence.
Qed.

Lemma grown_prefix (h name : string) (f f' : gmap string node) :
  String.prefix h name = true -> grown h f f' -> grown name f f'.
Proof.
  intros Hh H p. destruct (H p) as [E|(E & E' & Hp)]; [left; exact E | right].
  repeat split; try assumption. exact (prefix_trans _ _ _ Hp Hh).
Qed.

Lemma grown_trans (name : string) (f f1 f2 : gmap string node) :
  grown name f f1 -> grown name f1 f2 -> grown name f f2.
Proof.
  intros H1 H2 p. destruct (H2 p) as [E2|(N2 & D2 & P2)], (H1 p) as [E1|(N1 & D1 & P1)].
  - left. congruence.
  - right. repeat split; congruence.
  - right. repeat split; congruence.
  - congruence.
Qed.

(** [os.mkdir] returns after adding the one directory, or raises and
    changes nothing. *)
Lemma os_mkdir_eq (path : string) (w : world) (c : client) :
  (os_mkdir path (w, c) = Ok tt (World (<[path := Dir]> (fs w)) (trace w), c) ∧
   stat (fs w) path = None) ∨
  ∃ e, os_mkdir path (w, c) = Raise e w.
Proof.
  unfold os_mkdir. unfold_M. cbn.
  destruct (stat (fs w) path) as [n|] eqn:E; [right; eauto|].
  destruct (String.eqb path ""); [right; eauto|].
  destruct (String.eqb _ ""); [left; auto|].
  destruct (stat (fs w) (leaf_split path).1) as [[content|]|]; [right; eauto | left; auto | right; eauto].
Qed.

Lemma mkdir_exist_ok_eq (name : string) (w : world) (c : client) :
  (mkdir_exist_ok name (w, c) = Ok tt (World (<[name := Dir]> (fs w)) (trace w), c) ∧
   stat (fs w) name = None) ∨
  mkdir_exist_ok name (w, c) = Ok tt (w, c) ∨
  ∃ e, mkdir_exist_ok name (w, c) = Raise e w.
Proof.
  unfold mkdir_exist_ok. destruct (os_mkdir_eq name w c) as [[-> E]|[e ->]]; [left; auto|].
  right. cbn [snd]. destruct (stat (fs w) name) as [[content|]|]; eauto.
Qed.

Lemma mkdir_exist_ok_effects (name : string) (s : state) :
  trace (final_world (mkdir_exist_ok name s)) = trace (fst s) ∧
  grown name (fs (fst s)) (fs (final_world (mkdir_exist_ok name s))) ∧
  ∀ s', mkdir_exist_ok name s = Ok tt s' -> snd s' = snd s.
Proof.
  destruct s as [w c].
  destruct (mkdir_exist_ok_eq name w c) as [[-> E]|[->|[e ->]]]; cbn [final_world fst snd fs trace].
  - repeat split; [apply grown_insert, stat_None, E | intros s' [= <-]; reflexivity].
  - repeat split; [apply grown_refl | intros s' [= <-]; reflexivity].
  - repeat split; [apply grown_refl | discriminate].
Qed.

(** [os.makedirs] prints and sends nothing, leaves the client alone and adds
    only directories, each spelled by an initial part of the name. *)
Lemma makedirs_effects (fuel : nat) :
  ∀ (name : string) (s : state),
    trace (final_world (makedirs fuel name s)) = trace (fst s) ∧
    grown name (fs (fst s)) (fs (final_world (makedirs fuel name s))) ∧
    ∀ s', makedirs fuel name s = Ok tt s' -> snd s' = snd s.
Proof.
  induction fuel as [|fuel IH]; intros name s; cbn [makedirs];
    destruct (leaf_split name) as [head tail] eqn:E; [apply mkdir_exist_ok_effects|].
  destruct (_ && _); [|apply mkdir_exist_ok_effects].
  apply leaf_split_prefix in E.
  destruct (IH head s) as (Ht & Hg & Hc). apply (grown_prefix _ _ _ _ E) in Hg.
  assert (Hlast : ∀ s1, trace (fst s1) = trace (fst s) -> snd s1 = snd s ->
            grown name (fs (fst s)) (fs (fst s1)) ->
            let o := if String.eqb tail "." then Ok tt s1 else mkdir_exist_ok name s1 in
            trace (final_world o) = trace (fst s) ∧
            grown name (fs (fst s)) (fs (final_world o)) ∧
            ∀ s', o = Ok tt s' -> snd s' = snd s).
  { intros s1 Ht1 Hc1 Hg1. cbv zeta. destruct (String.eqb tail ".").
    - cbn [final_world]. repeat split; [exact Ht1 | exact Hg1 | intros s' [= <-]; exact Hc1].
    - destruct (mkdir_exist_ok_effects name s1) as (Ht2 & Hg2 & Hc2).
      repeat split; [congruence | exact (grown_trans _ _ _ _ Hg1 Hg2) |].
      intros s' H. rewrite (Hc2 _ H). exact Hc1. }
  destruct (makedirs fuel head s) as [[] s1|e w1]; cbn [final_world] in *.
  - apply Hlast; auto.
  - destruct e; try (repeat split; [exact Ht | exact Hg | discriminate]).
    apply (Hlast (w1, snd s)); auto.
Qed.

Lemma os_makedirs_effects (path : string) (s : state) :
  trace (final_world (os_makedirs path s)) = trace (fst s) ∧
  grown path (fs (fst s)) (fs (final_world (os_makedirs path s))) ∧
  ∀ s', os_makedirs path s = Ok tt s' -> snd s' = snd s.
Proof. apply makedirs_effects. Qed.

(** When the directory the name lies in is there, or the name has none,
    [os.makedirs] is one [os.mkdir]. *)
Lemma os_makedirs_parent (path : string) (s : state) :
  (fst (leaf_split path) = "" ∨ is_Some (stat (fs (fst s)) (fst (leaf_split path)))) ->
  os_makedirs path s = mkdir_exist_ok path s.
Proof.
  unfold os_makedirs. intros H. destruct (String.length path); cbn [makedirs];
    destruct (leaf_split path) as [head tail]; [reflexivity|]. cbn [fst] in H.
  destruct H as [->|[nd ->]]; [reflexivity|]. rewrite !andb_false_r. reflexivity.
Qed.

(** The length of the name is fuel enough: more fuel changes nothing. *)
Lemma makedirs_fuel (fuel : nat) :
  ∀ (fuel' : nat) (name : string) (s : state),
    (String.length name <= fuel)%nat -> (String.length name <= fuel')%nat ->
    makedirs fuel name s = makedirs fuel' name s.
Proof.
  induction fuel as [|fuel IH]; intros fuel' name s H H'.
  - destruct name; [|cbn [String.length] in H; lia].
    destruct fuel'; reflexivity.
  - destruct fuel' as [|fuel'].
    + destruct name; [reflexivity | cbn [String.length] in H'; lia].
    + cbn [makedirs]. destruct (leaf_split name) as [head tail] eqn:E.
      apply leaf_split_length in E.
      destruct (String.eqb tail "") eqn:Et; [rewrite !andb_false_r; reflexivity|].
      assert (String.length tail ≠ 0%nat).
      { destruct tail; [discriminate | cbn [String.length]; lia]. }
      rewrite (IH fuel' head s) by lia. reflexivity.
Qed.

(** [os_makedirs] satisfies the recursive equation the library's function is
    written as. *)
Lemma os_makedirs_unfold (path : string) (s : state) :
  os_makedirs path s =
    let '(head, tail) := leaf_split path in
    let last (s' : state) : outcome unit :=
      if String.eqb tail "." then Ok tt s' else mkdir_exist_ok path s' in
    if negb (String.eqb head "") && negb (String.eqb tail "") &&
       match stat (fs (fst s)) head with Some _ => false | None => true end
    then match os_makedirs head s with
         | Ok _ s' => last s'
         | Raise FileExistsError w => last (w, snd s)
         | Raise e w => Raise e w
         end
    else mkdir_exist_ok path s.
Proof.
  unfold os_makedirs. destruct (String.length path) as [|fuel] eqn:El.
  - destruct path; [reflexivity | discriminate].
  - cbn [makedirs]. destruct (leaf_split path) as [head tail] eqn:E.
    apply leaf_split_length in E.
    destruct (String.eqb tail "") eqn:Et; [rewrite !andb_false_r; reflexivity|].
    assert (String.length tail ≠ 0%nat).
    { destruct tail; [discriminate | cbn [String.length]; lia]. }
    rewrite (makedirs_fuel fuel (String.length head) head s) by lia. reflexivity.
Qed.

Lemma leaf_split_empty (name : string) : name = "" -> fst (leaf_split name) = "".
Proof. intros ->. reflexivity. Qed.

(** With the directory it lies in in place, [os.makedirs] looks at the name
    alone. *)
Lemma mkdir_exist_ok_parent (name : string) (w : world) (c : client) :
  stat (fs w) (fst (leaf_split name)) = Some Dir ->
  mkdir_exist_ok name (w, c) =
    match stat (fs w) name with
    | Some Dir => Ok tt (w, c)
    | Some (File _) => Raise FileExistsError w
    | None => Ok tt (World (<[name := Dir]> (fs w)) (trace w), c)
    end.
Proof.
  intros H. unfold mkdir_exist_ok, os_mkdir. unfold_M. cbn -[String.eqb stat leaf_split].
  destruct (stat (fs w) name) as [[content|]|] eqn:E.
  - cbn -[stat]. rewrite E. reflexivity.
  - cbn -[stat]. rewrite E. reflexivity.
  - destruct (String.eqb name "") eqn:En.
    + apply String.eqb_eq in En. subst name. change (fst (leaf_split "")) with "" in H.
      congruence.
    + rewrite H. destruct (String.eqb (fst (leaf_split name)) ""); reflexivity.
Qed.

(** A regular file where the directory should be stops [os.mkdir]. *)
Lemma mkdir_exist_ok_under_file (name : string) (w : world) (c : client) (content : file_data) :
  fst (leaf_split name) ≠ "" ->
  stat (fs w) (fst (leaf_split name)) = Some (File content) ->
  stat (fs w) name = None ->
  mkdir_exist_ok name (w, c) = Raise NotADirectoryError w.
Proof.
  intros Hp Hf Hn. unfold mkdir_exist_ok, os_mkdir. unfold_M.
  cbn -[String.eqb stat leaf_split]. rewrite Hn.
  destruct (String.eqb name "") eqn:En.
  - apply String.eqb_eq, leaf_split_empty in En. contradiction.
  - apply String.eqb_neq in Hp. rewrite Hp, Hf. cbn -[stat]. rewrite Hn. reflexivity.
Qed.

(** After [os.makedirs] has returned the name is a directory, unless its
    last component is [.]. *)
Lemma mkdir_exist_ok_made (name : string) (s s' : state) :
  mkdir_exist_ok name s = Ok tt s' -> stat (fs (fst s')) name = Some Dir.
Proof.
  destruct s as [w c]. unfold mkdir_exist_ok.
  destruct (os_mkdir_eq name w c) as [[-> E]|[e ->]].
  - intros [= <-]. cbn [fst fs]. unfold stat. rewrite lookup_insert_eq.
    destruct (_ && _); reflexivity.
  - cbn [snd]. destruct (stat (fs w) name) as [[content|]|] eqn:E; [discriminate| |discriminate].
    intros [= <-]. exact E.
Qed.

Lemma os_makedirs_made (path : string) (s s' : state) :
  snd (leaf_split path) ≠ "." ->
  os_makedirs path s = Ok tt s' -> stat (fs (fst s')) path = Some Dir.
Proof.
  unfold os_makedirs. intros Hl. destruct (String.length path) as [|fuel]; cbn [makedirs];
    destruct (leaf_split path) as [head tail]; [apply mkdir_exist_ok_made|].
  cbn [snd] in Hl. apply String.eqb_neq in Hl. rewrite Hl.
  destruct (_ && _); [|apply mkdir_exist_ok_made].
  destruct (makedirs fuel head s) as [[] s1|[] w1]; try discriminate;
    apply mkdir_exist_ok_made.
Qed.

Section Proofs.

Variable net : portal.
Variable today : date.
Variable CONFIG_DIR : string.
Abbreviation creds_path := (os_path_join CONFIG_DIR "authid").

(** ** The credential store *)

Lemma load_absent w c :
  fs w !! creds_path = None -> _load_credentials CONFIG_DIR (w, c) = Ok tt (w, c).
Proof.
  intros H. unfold _load_credentials. unfold_M. cbn. rewrite !H. reflexivity.
Qed.

Lemma load_file w c content :
  fs w !! creds_path = Some (File content) ->
  _load_credentials CONFIG_DIR (w, c) =
    match content with
    | Raw _ => Raise JSONDecodeError w
    | Json v =>
        match session_base v with
        | inl e => Raise e w
        | inr (d, b) => Ok tt (w, Client d b)
        end
    end.
Proof.
  intros H. unfold _load_credentials. unfold_M. cbn. rewrite H. cbn. rewrite H.
  destruct content as [raw|v]; [reflexivity|].
  destruct (session_base v) as [e|[d b]]; reflexivity.
Qed.

Lemma session_base_object d a :
  d !! "auth_id" = Some (JString a) ->
  session_base (JObject d) = inr (d, ABNETSYS_BASE ++ "/" ++ a).
Proof. intros H. unfold session_base. rewrite H. reflexivity. Qed.

Lemma load_record w c d a :
  fs w !! creds_path = Some (File (Json (JObject d))) ->
  d !! "auth_id" = Some (JString a) ->
  _load_credentials CONFIG_DIR (w, c) = Ok tt (w, Client d (ABNETSYS_BASE ++ "/" ++ a)).
Proof.
  intros H Ha. rewrite (load_file _ _ _ H), (session_base_object _ _ Ha). reflexivity.
Qed.

(** Saving is [os.makedirs], then the write of the whole record. *)
Lemma save_eq a u w c :
  _save_credentials CONFIG_DIR a u (w, c) =
    let creds := <["user_id" := JString u]> (<["auth_id" := JString a]> (_creds c)) in
    match os_makedirs CONFIG_DIR (w, c) with
    | Raise e w1 => Raise e w1
    | Ok _ s1 =>
        match fs (fst s1) !! creds_path with
        | Some Dir => Raise IsADirectoryError (fst s1)
        | _ => Ok tt (World (<[creds_path := File (Json (JObject creds))]> (fs (fst s1)))
                            (trace w),
                      Client creds (ABNETSYS_BASE ++ "/" ++ a))
        end
    end.
Proof.
  unfold _save_credentials. unfold_M.
  destruct (os_makedirs_effects CONFIG_DIR (w, c)) as (Ht & _ & Hc).
  destruct (os_makedirs CONFIG_DIR (w, c)) as [[] [w1 c1]|e w1]; [|reflexivity].
  specialize (Hc _ eq_refl). cbn [final_world fst snd] in *. subst c1.
  cbn -[ABNETSYS_BASE].
  destruct (fs w1 !! creds_path) as [[f|]|]; cbn -[ABNETSYS_BASE]; rewrite ?Ht; reflexivity.
Qed.

(** What a successful save leaves behind. *)
Lemma save_ok a u w c s' :
  _save_credentials CONFIG_DIR a u (w, c) = Ok tt s' ->
  _creds (snd s') = <["user_id" := JString u]> (<["auth_id" := JString a]> (_creds c)) ∧
  base (snd s') = ABNETSYS_BASE ++ "/" ++ a ∧
  trace (fst s') = trace w ∧
  fs (fst s') !! creds_path = Some (File (Json (JObject (_creds (snd s'))))).
Proof.
  rewrite save_eq. cbv zeta.
  destruct (os_makedirs CONFIG_DIR (w, c)) as [[] s1|e w1]; [|discriminate].
  destruct (fs (fst s1) !! creds_path) as [[f|]|] eqn:E'; [|discriminate|];
    intros [= <-]; cbn -[ABNETSYS_BASE]; rewrite lookup_insert_eq; auto.
Qed.

(** ** The session resolver *)

Lemma ensure_valid tty w c d a res :
  fs w !! creds_path = Some (File (Json (JObject d))) ->
  d !! "auth_id" = Some (JString a) ->
  http_get net (ABNETSYS_BASE ++ "/" ++ a) = Some res ->
  Str.contains "/abnetopac/timeout.html" (resp_text res) = false ->
  _ensure_auth net CONFIG_DIR tty (w, c) =
    Ok tt (World (fs w) (trace w ++ [Get (ABNETSYS_BASE ++ "/" ++ a)]),
           Client d (ABNETSYS_BASE ++ "/" ++ a)).
Proof.
  intros H Ha Hget Hm. unfold _ensure_auth.
  unfold mbind at 1. unfold M_bind at 1. rewrite (load_record _ _ _ _ H Ha).
  unfold requests_get. unfold_M. cbn -[ABNETSYS_BASE].
  rewrite Ha, Hget. cbn -[ABNETSYS_BASE]. rewrite Hm. reflexivity.
Qed.

Lemma ensure_expired tty w c d a res :
  fs w !! creds_path = Some (File (Json (JObject d))) ->
  d !! "auth_id" = Some (JString a) ->
  http_get net (ABNETSYS_BASE ++ "/" ++ a) = Some res ->
  Str.contains "/abnetopac/timeout.html" (resp_text res) = true ->
  _ensure_auth net CONFIG_DIR tty (w, c) =
    login net CONFIG_DIR tty
      (World (fs w) (trace w ++ [Get (ABNETSYS_BASE ++ "/" ++ a);
                                 Print "Previous session expired"]),
       Client ∅ (ABNETSYS_BASE ++ "/" ++ a)).
Proof.
  intros H Ha Hget Hm. unfold _ensure_auth.
  unfold mbind at 1. unfold M_bind at 1. rewrite (load_record _ _ _ _ H Ha).
  unfold requests_get. unfold_M. cbn -[ABNETSYS_BASE login].
  rewrite Ha, Hget. cbn -[ABNETSYS_BASE login]. rewrite Hm.
  cbn [fst snd fs trace base _creds]. rewrite <- app_assoc. reflexivity.
Qed.

(** ** The authenticator *)

Lemma login_attempt user password rest w c :
  login net CONFIG_DIR (user :: password :: rest) (w, c) =
    let w1 := World (fs w) (trace w ++ [Prompt "UCLM user: ";
                                        Prompt ("password for " ++ user ++ ": ");
                                        Get ABNETSYS_BASE]) in
    let c1 := Client (_creds c) ABNETSYS_BASE in
    match http_get net ABNETSYS_BASE with
    | None => Raise RequestException w1
    | Some res0 =>
        match resp_tree res0 with
        | None => Raise ParserError w1
        | Some tree =>
            match index_path tree with
            | inl e => Raise e w1
            | inr path =>
                let w2 := World (fs w) (trace w ++ attempt_events user password path) in
                match http_post net (ABNETSYS_BASE ++ path ++ "/NT1")
                                (login_form user password) with
                | None => Raise RequestException w2
                | Some res =>
                    if Str.contains "incorrecta" (resp_text res)
                    then login net CONFIG_DIR rest (w2, c1)
                    else
                      match resp_tree res with
                      | None => Raise ParserError w2
                      | Some tree' =>
                          match display_name tree' with
                          | inl e => Raise e w2
                          | inr name =>
                              let w3 := World (fs w)
                                (trace w2 ++
                                 [PrintFmt "successfully authenticated as {} ({})"
                                           [JString user; JString name]]) in
                              match session_token (resp_url res) with
                              | inl e => Raise e w3
                              | inr auth_id =>
                                  _save_credentials CONFIG_DIR auth_id user (w3, c1)
                              end
                          end
                      end
                end
            end
        end
    end.
Proof.
  cbn [login]. unfold requests_get, requests_post, html_fromstring, attempt_events.
  unfold_M. step.
  destruct (http_get net ABNETSYS_BASE) as [res0|]; [|reflexivity].
  destruct (resp_tree res0) as [tree|]; [|reflexivity].
  destruct (index_path tree) as [e|path]; [reflexivity|]. step.
  destruct (http_post net _ _) as [res|]; [|reflexivity].
  destruct (Str.contains "incorrecta" (resp_text res)); [reflexivity|].
  destruct (resp_tree res) as [tree'|]; [|reflexivity].
  destruct (display_name tree') as [e|name]; [reflexivity|]. step.
  destruct (session_token (resp_url res)) as [e|auth_id]; reflexivity.
Qed.

(** A rejected attempt hands over to the next one. *)
Lemma login_rejected user password rest w c path res :
  redirect_ok net path ->
  http_post net (ABNETSYS_BASE ++ path ++ "/NT1") (login_form user password) = Some res ->
  Str.contains "incorrecta" (resp_text res) = true ->
  login net CONFIG_DIR (user :: password :: rest) (w, c) =
    login net CONFIG_DIR rest
      (World (fs w) (trace w ++ attempt_events user password path),
       Client (_creds c) ABNETSYS_BASE).
Proof.
  intros (res0 & tree & Hget & Htree & Hpath) Hpost Hmark.
  rewrite login_attempt, Hget, Htree, Hpath. cbv zeta. rewrite Hpost, Hmark. reflexivity.
Qed.

Lemma login_mismatch_raises tty :
  login_mismatch net tty ->
  ∀ w c, ∃ w', login net CONFIG_DIR tty (w, c) = Raise IndexError w'.
Proof.
  induction 1 as
    [user password rest res0 tree Hget Htree Habs
    |user password rest res tree (path & (res0 & tree0 & Hget & Htree0 & Hpath) & Hpost)
       Hmark Htree Habs
    |user password rest res tree name
       (path & (res0 & tree0 & Hget & Htree0 & Hpath) & Hpost) Hmark Htree Hname Habs
    |user password rest res (path & Hredirect & Hpost) Hmark _ IH];
    intros w c.
  - rewrite login_attempt, Hget, Htree, (index_path_absent _ Habs). eauto.
  - rewrite login_attempt, Hget, Htree0, Hpath. cbv zeta.
    rewrite Hpost, Hmark, Htree, (display_name_absent _ Habs). eauto.
  - rewrite login_attempt, Hget, Htree0, Hpath. cbv zeta.
    rewrite Hpost, Hmark, Htree, Hname, (session_token_absent _ Habs). eauto.
  - rewrite (login_rejected _ _ _ _ _ _ _ Hredirect Hpost Hmark). apply IH.
Qed.

Lemma status_eq tty s s1 :
  _ensure_auth net CONFIG_DIR tty s = Ok tt s1 ->
  status net CONFIG_DIR tty s =
    let url := base (snd s1) ++ "/NT1?ACC=101" in
    let w1 := World (fs (fst s1)) (trace (fst s1) ++ [Get url]) in
    match http_get net url with
    | None => Raise RequestException w1
    | Some res =>
        match resp_tree res with
        | None => Raise ParserError w1
        | Some tree =>
            match display_name tree with
            | inl e => Raise e w1
            | inr name =>
                match _creds (snd s1) !! "user_id" with
                | None => Raise (KeyError "user_id") w1
                | Some user_id =>
                    Ok tt (World (fs (fst s1))
                             (trace (fst s1) ++
                              [Get url; PrintFmt "authenticated as {} ({})"
                                                 [user_id; JString name]]),
                           snd s1)
                end
            end
        end
    end.
Proof.
  intros H. unfold status. unfold mbind at 1. unfold M_bind at 1. rewrite H.
  destruct s1 as [w1 c1]. unfold requests_get, html_fromstring. unfold_M. step.
  destruct (http_get net _) as [res|]; [|reflexivity].
  destruct (resp_tree res) as [tree|]; [|reflexivity].
  destruct (display_name tree) as [e|name]; [reflexivity|]. step.
  destruct (_creds c1 !! "user_id") as [v|]; [|reflexivity]. step.
  destruct c1; reflexivity.
Qed.

Lemma status_mismatch_raises tty s :
  status_mismatch net CONFIG_DIR tty s ->
  ∃ w', status net CONFIG_DIR tty s = Raise IndexError w'.
Proof.
  intros (s1 & res & tree & Hens & Hget & Htree & Habs).
  rewrite (status_eq _ _ _ Hens). cbv zeta.
  rewrite Hget, Htree, (display_name_absent _ Habs). eauto.
Qed.

(** What a normal return of [login] tells: the last request is the form
    of an attempt whose answer lacks the failure marker, and its token and
    user are stored in memory and on disk. *)
Lemma login_ok tty :
  ∀ w c s', login net CONFIG_DIR tty (w, c) = Ok tt s' ->
  ∃ evs user password path res name auth_id,
    trace (fst s') =
      (trace w ++ evs ++ attempt_events user password path ++
       [PrintFmt "successfully authenticated as {} ({})"
                 [JString user; JString name]])%list ∧
    http_post net (ABNETSYS_BASE ++ path ++ "/NT1") (login_form user password) = Some res ∧
    Str.contains "incorrecta" (resp_text res) = false ∧
    session_token (resp_url res) = inr auth_id ∧
    _creds (snd s') =
      <["user_id" := JString user]> (<["auth_id" := JString auth_id]> (_creds c)) ∧
    base (snd s') = ABNETSYS_BASE ++ "/" ++ auth_id ∧
    fs (fst s') !! creds_path = Some (File (Json (JObject (_creds (snd s'))))).
Proof.
  induction tty as [|user|user password rest IH] using pair_ind; intros w c s'.
  - discriminate.
  - discriminate.
  - rewrite login_attempt. cbv zeta.
    destruct (http_get net ABNETSYS_BASE) as [res0|]; [|discriminate].
    destruct (resp_tree res0) as [tree|]; [|discriminate].
    destruct (index_path tree) as [e|path]; [discriminate|].
    destruct (http_post net _ _) as [res|] eqn:Hpost; [|discriminate].
    destruct (Str.contains "incorrecta" (resp_text res)) eqn:Hmark.
    + intros H. apply IH in H as (evs & u & p & path' & res' & name & a & Ht & H).
      cbn [_creds fst snd trace] in *.
      exists (attempt_events user password path ++ evs)%list, u, p, path', res', name, a.
      split; [|exact H]. rewrite Ht, <- !app_assoc. reflexivity.
    + destruct (resp_tree res) as [tree'|]; [|discriminate].
      destruct (display_name tree') as [e|name]; [discriminate|].
      destruct (session_token (resp_url res)) as [e|auth_id] eqn:Htok; [discriminate|].
      intros H. apply save_ok in H as (Hc & Hb & Ht & Hf). cbn [_creds fst snd trace] in *.
      exists [], user, password, path, res, name, auth_id.
      rewrite Ht, <- !app_assoc. auto 10.
Qed.

(** ** The loans extractor *)

Lemma list_eq tty s s1 :
  _ensure_auth net CONFIG_DIR tty s = Ok tt s1 ->
  list_ net today CONFIG_DIR tty s =
    let url := base (snd s1) ++ "/NT29?ACC=210" in
    let w1 := World (fs (fst s1)) (trace (fst s1) ++ [Get url]) in
    match http_get net url with
    | None => Raise RequestException w1
    | Some res =>
        match resp_tree res with
        | None => Raise ParserError w1
        | Some tree =>
            match loans_of_rows today (drop 1 (xpath_loans tree)) with
            | inl e => Raise e w1
            | inr table =>
                Ok tt (World (fs (fst s1))
                         (trace (fst s1) ++
                          [Get url; PrintTable ["Title"; "Due date"; "Remaining"] table]),
                       snd s1)
            end
        end
    end.
Proof.
  intros H. unfold list_. unfold mbind at 1. unfold M_bind at 1. rewrite H.
  destruct s1 as [w1 c1]. unfold requests_get, html_fromstring. unfold_M. step.
  destruct (http_get net _) as [res|]; [|reflexivity].
  destruct (resp_tree res) as [tree|]; [|reflexivity].
  destruct (loans_of_rows today (drop 1 (xpath_loans tree))) as [e|table]; [reflexivity|].
  step. destruct c1; reflexivity.
Qed.


Lemma text_strip_some cell s : text cell = Some s -> text_strip cell = inr (Str.strip s).
Proof. unfold text_strip. intros ->. reflexivity. Qed.

Lemma getitem_some {A : Type} (l : list A) i x : l !! i = Some x -> getitem l i = inr x.
Proof. unfold getitem. intros ->. reflexivity. Qed.




Lemma loan_of_row_denotes row l : row_denotes today row l -> loan_of_row today row = inr l.
Proof.
  intros (c3 & t3 & c4 & t4 & sd & sm & sy & more & d & m & y &
          H3 & Ht3 & H4 & Ht4 & Hsplit & Hd & Hm & Hy & Hdate & ->).
  unfold loan_of_row.
  rewrite (getitem_some _ _ _ H3). cbn [mbind result_bind].
  rewrite (text_strip_some _ _ Ht3). cbn [mbind result_bind].
  rewrite (getitem_some _ _ _ H4). cbn [mbind result_bind].
  rewrite (text_strip_some _ _ Ht4). cbn [mbind result_bind].
  rewrite Hsplit. cbn [getitem lookup list_lookup mbind result_bind].
  rewrite Hy. cbn [mbind result_bind]. rewrite Hm. cbn [mbind result_bind].
  rewrite Hd. cbn [mbind result_bind]. rewrite Hdate. reflexivity.
Qed.

Lemma loans_of_rows_denote data :
  Forall (fun row => ∃ l, row_denotes today row l) data ->
  ∃ loans, loans_of_rows today data = inr loans ∧ Forall2 (row_denotes today) data loans.
Proof.
  induction 1 as [|row data [l Hl] _ (loans & Hloans & Hall)].
  - exists []. split; [reflexivity | constructor].
  - exists (l :: loans). split; [|constructor; assumption].
    cbn [loans_of_rows]. rewrite (loan_of_row_denotes _ _ Hl), Hloans. reflexivity.
Qed.

(** ** Exceptions of the credential store reach the caller *)

Lemma ensure_load_raises tty s e w' :
  _load_credentials CONFIG_DIR s = Raise e w' ->
  _ensure_auth net CONFIG_DIR tty s = Raise e w'.
Proof.
  intros H. unfold _ensure_auth. unfold mbind at 1. unfold M_bind at 1.
  rewrite H. reflexivity.
Qed.

Lemma status_ensure_raises tty s e w' :
  _ensure_auth net CONFIG_DIR tty s = Raise e w' ->
  status net CONFIG_DIR tty s = Raise e w'.
Proof.
  intros H. unfold status. unfold mbind at 1. unfold M_bind at 1.
  rewrite H. reflexivity.
Qed.

Lemma list_ensure_raises tty s e w' :
  _ensure_auth net CONFIG_DIR tty s = Raise e w' ->
  list_ net today CONFIG_DIR tty s = Raise e w'.
Proof.
  intros H. unfold list_. unfold mbind at 1. unfold M_bind at 1.
  rewrite H. reflexivity.
Qed.

(** The exception an unusable record raises. *)
Lemma load_unusable w c content :
  fs w !! creds_path = Some (File content) ->
  ¬ usable content ->
  ∃ e, (e = JSONDecodeError ∨ e = TypeError ∨ e = KeyError "auth_id") ∧
       _load_credentials CONFIG_DIR (w, c) = Raise e w.
Proof.
  intros H Hbad. rewrite (load_file _ _ _ H).
  destruct content as [raw|v]; [eauto|].
  destruct v as [| | | | |l|d]; cbn [session_base]; eauto.
  destruct (d !! "auth_id") as [v|] eqn:Ha; [|eauto].
  destruct v; eauto.
  exfalso. apply Hbad. unfold usable. eauto.
Qed.

(** [logout] on the object that holds the credentials in memory. *)
Lemma logout_in_memory w c v content :
  _creds c !! "auth_id" = Some v ->
  fs w !! creds_path = Some (File content) ->
  logout CONFIG_DIR (w, c) = Ok tt (World (delete creds_path (fs w)) (trace w), c).
Proof.
  intros Hc Hf. unfold logout. unfold_M. cbn. rewrite Hc. cbn. rewrite Hf. reflexivity.
Qed.

(** [logout] on an object that holds none, whatever the disk holds. *)
Lemma logout_not_loaded w c :
  _creds c !! "auth_id" = None ->
  logout CONFIG_DIR (w, c) =
    Ok tt (World (fs w) (trace w ++ [Print "not authenticated"]), c).
Proof. intros Hc. unfold logout. unfold_M. cbn. rewrite Hc. reflexivity. Qed.

(** ** Repeated rejections *)


End Proofs.



(** * The claims *)

(** ** Page extraction *)

(** C1 (as amended): when the meta-refresh tag, the anchor with the logout
    title or the session marker of the URL is absent from the page [login]
    or [status] reads, the operation ends with the built-in [IndexError] of
    the failed subscript.  The program has no error class of its own. *)
Theorem C1_absent_node_raises_IndexError
    (net : portal) (CONFIG_DIR : string) (op : extraction) (tty : list string) (s : state) :
  structure_mismatch net CONFIG_DIR op tty s ->
  ∃ w', extract net CONFIG_DIR op tty s = Raise IndexError w'.
Proof.
  destruct op; cbn [structure_mismatch extract]; intros H.
  - destruct s as [w c]. apply login_mismatch_raises, H.
  - apply status_mismatch_raises, H.
Qed.

(** The status page of a resolved session shows a maintenance notice. *)
Lemma C1_status_witness :
  ∃ w', extract (Sample.portal_with Sample.index "ok" Sample.maintenance Sample.two_loans)
                Sample.CONFIG_DIR ExStatus [] (Sample.logged_in, __init__)
        = Raise IndexError w'.
Proof.
  apply C1_absent_node_raises_IndexError. cbn [structure_mismatch].
  eexists _, Sample.maintenance, Sample.maintenance_tree.
  split; [vm_compute; reflexivity|]. split; [vm_compute; reflexivity|].
  split; [reflexivity|]. unfold anchor_absent. vm_compute. constructor.
Defined.

(** C1 (as stated) fails: the portal root answers with a maintenance page
    that has no meta-refresh tag, and [login] ends with [IndexError]. *)
Lemma C1_login_without_meta_refresh :
  meta_refresh_absent Sample.maintenance_tree ∧
  login (Sample.portal_with Sample.maintenance "ok" Sample.welcome Sample.two_loans)
        Sample.CONFIG_DIR ["alice"; "secret"] (Sample.empty_disk, __init__)
  = Raise IndexError
      (World ∅ [Prompt "UCLM user: "; Prompt "password for alice: "; Get ABNETSYS_BASE]).
Proof. split; vm_compute; reflexivity. Qed.




(** C7: for a loans page with a header row and N data rows that are well
    formed, [list] prints a table of exactly N records, in order, each with
    the stripped third cell as title, the date read from the fourth cell as
    day/month/year and the days from today to that date; a date of
    2024-01-01 seen on 2024-01-10 gives -9. *)
Theorem C7_list_prints_one_record_per_row
    (net : portal) (today : date) (CONFIG_DIR : string) (tty : list string)
    (s s1 : state) (res : response) (tree : element) (header : element)
    (data : list element) :
  _ensure_auth net CONFIG_DIR tty s = Ok tt s1 ->
  http_get net (base (snd s1) ++ "/NT29?ACC=210") = Some res ->
  resp_tree res = Some tree ->
  xpath_loans tree = header :: data ->
  Forall (fun row => ∃ l, row_denotes today row l) data ->
  (∃ loans,
     list_ net today CONFIG_DIR tty s =
       Ok tt (World (fs (fst s1))
                (trace (fst s1) ++
                 [Get (base (snd s1) ++ "/NT29?ACC=210");
                  PrintTable ["Title"; "Due date"; "Remaining"] loans]),
              snd s1) ∧
     List.length loans = List.length data ∧
     Forall2 (row_denotes today) data loans) ∧
  days_between (Date 2024 1 1) (Date 2024 1 10) = (-9)%Z.
Proof.
  intros Hens Hget Htree Hrows Hdata. split; [|reflexivity].
  destruct (loans_of_rows_denote _ _ Hdata) as (loans & Hloans & Hall).
  exists loans. split; [|split; [|exact Hall]].
  - rewrite (list_eq _ _ _ _ _ _ Hens). cbv zeta.
    rewrite Hget, Htree, Hrows. change (drop 1 (header :: data)) with data.
    rewrite Hloans. reflexivity.
  - symmetry. eapply Forall2_length, Hall.
Qed.

(** The two loans of the sample portal, seen on 2024-01-10. *)
Example list_two_loans :
  list_ Sample.net Sample.today Sample.CONFIG_DIR [] (Sample.logged_in, __init__)
  = Ok tt (World (fs Sample.logged_in)
             [Get Sample.session; Get (Sample.session ++ "/NT29?ACC=210");
              PrintTable ["Title"; "Due date"; "Remaining"]
                [Loan "Don Quijote" (Date 2024 1 1) (-9);
                 Loan "La Regenta" (Date 2024 2 15) 36]],
           Client (Sample.record Sample.token "alice") Sample.session).
Proof. vm_compute. reflexivity. Qed.

Lemma C7_two_loans_witness :
  (∃ loans,
     list_ Sample.net Sample.today Sample.CONFIG_DIR [] (Sample.logged_in, __init__) =
       Ok tt (World (fs Sample.logged_in)
                ([Get Sample.session] ++
                 [Get (Sample.session ++ "/NT29?ACC=210");
                  PrintTable ["Title"; "Due date"; "Remaining"] loans]),
              Client (Sample.record Sample.token "alice") Sample.session) ∧
     List.length loans = 2%nat ∧
     Forall2 (row_denotes Sample.today) (drop 1 Sample.two_loans) loans) ∧
  days_between (Date 2024 1 1) (Date 2024 1 10) = (-9)%Z.
Proof.
  refine (C7_list_prints_one_record_per_row Sample.net Sample.today Sample.CONFIG_DIR []
            (Sample.logged_in, __init__)
            (World (fs Sample.logged_in) [Get Sample.session],
             Client (Sample.record Sample.token "alice") Sample.session)
            _ (Sample.loans_tree Sample.two_loans) Sample.header
            (drop 1 Sample.two_loans) _ _ _ _ _).
  - vm_compute. reflexivity.
  - vm_compute. reflexivity.
  - reflexivity.
  - vm_compute. reflexivity.
  - repeat constructor; eexists; unfold row_denotes;
      do 11 eexists; repeat (split; [reflexivity|]); reflexivity.
Defined.

(** ** The credential store *)

(** C2: the command [absystool logout] runs [logout] on a new object, whose
    [_creds] is empty because nothing loads the stored record: whatever the
    disk holds, it prints [not authenticated] and leaves every file in
    place, the saved record included. *)
Theorem C2_cli_logout_keeps_record
    (home : string) (net : portal) (today : date) (prog : string)
    (tty : list string) (w : world) :
  main (Some home) net today [prog; "logout"] tty w =
    Ok tt (World (fs w) (trace w ++ [Print "not authenticated"]), __init__).
Proof. reflexivity. Qed.

(** After a login that saved its record, [logout] leaves the record where
    the next [_load_credentials] finds it. *)
Example logout_after_login :
  ∃ w1 c1,
    main (Some Sample.HOME) Sample.net Sample.today ["absystool"; "login"]
         ["alice"; "secret"] Sample.empty_disk = Ok tt (w1, c1) ∧
    main (Some Sample.HOME) Sample.net Sample.today ["absystool"; "logout"] [] w1 =
      Ok tt (World (fs w1) (trace w1 ++ [Print "not authenticated"]), __init__) ∧
    _load_credentials Sample.CONFIG_DIR (w1, __init__) =
      Ok tt (w1, Client (Sample.record Sample.token "alice") Sample.session).
Proof. eexists _, _. split; [|split]; vm_compute; reflexivity. Qed.




(** C6: when [_save_credentials] returns, [_load_credentials], run by any
    client on the resulting disk, holds the same [auth_id] and [user_id]. *)
Theorem C6_save_then_load
    (CONFIG_DIR auth_id user_id : string) (s s' : state) (c0 : client) :
  _save_credentials CONFIG_DIR auth_id user_id s = Ok tt s' ->
  ∃ d, _load_credentials CONFIG_DIR (fst s', c0) =
         Ok tt (fst s', Client d (ABNETSYS_BASE ++ "/" ++ auth_id)) ∧
       d !! "auth_id" = Some (JString auth_id) ∧
       d !! "user_id" = Some (JString user_id).
Proof.
  destruct s as [w c]. intros H. apply save_ok in H as (Hc & _ & _ & Hf).
  assert (Ha : _creds (snd s') !! "auth_id" = Some (JString auth_id)).
  { rewrite Hc, lookup_insert_ne by discriminate. apply lookup_insert_eq. }
  exists (_creds (snd s')). split; [|split; [exact Ha|]].
  - apply load_record; assumption.
  - rewrite Hc. apply lookup_insert_eq.
Qed.

Lemma C6_save_then_load_witness :
  ∃ d, _load_credentials Sample.CONFIG_DIR
         (World (<[Sample.creds_path :=
                     File (Json (JObject (Sample.record "O7046/ID5f3a" "alice")))]>
                   Sample.dirs) [], __init__) =
         Ok tt (World (<[Sample.creds_path :=
                           File (Json (JObject (Sample.record "O7046/ID5f3a" "alice")))]>
                         Sample.dirs) [],
                Client d (ABNETSYS_BASE ++ "/" ++ "O7046/ID5f3a")) ∧
       d !! "auth_id" = Some (JString "O7046/ID5f3a") ∧
       d !! "user_id" = Some (JString "alice").
Proof.
  apply (C6_save_then_load Sample.CONFIG_DIR "O7046/ID5f3a" "alice"
           (Sample.empty_disk, __init__)
           (World (<[Sample.creds_path :=
                       File (Json (JObject (Sample.record "O7046/ID5f3a" "alice")))]>
                     Sample.dirs) [],
            Client (Sample.record "O7046/ID5f3a" "alice")
                   (ABNETSYS_BASE ++ "/" ++ "O7046/ID5f3a"))
           __init__).
  vm_compute. reflexivity.
Defined.

(** C9 (as amended): a record written by [_save_credentials] holds both
    [auth_id] and [user_id]; a record read back is not checked for both: one
    without [auth_id] ends [_ensure_auth] with [KeyError], one with
    [auth_id] and without [user_id] is accepted as the stored session, and
    [status] then ends with [KeyError] when it prints the user. *)
Theorem C9_written_whole_read_unchecked :
  (∀ CONFIG_DIR auth_id user_id s s',
     _save_credentials CONFIG_DIR auth_id user_id s = Ok tt s' ->
     ∃ d, fs (fst s') !! os_path_join CONFIG_DIR "authid" = Some (File (Json (JObject d))) ∧
          d !! "auth_id" = Some (JString auth_id) ∧
          d !! "user_id" = Some (JString user_id)) ∧
  (∀ net CONFIG_DIR tty w c d,
     fs w !! os_path_join CONFIG_DIR "authid" = Some (File (Json (JObject d))) ->
     d !! "auth_id" = None ->
     _ensure_auth net CONFIG_DIR tty (w, c) = Raise (KeyError "auth_id") w) ∧
  (∀ net CONFIG_DIR tty w c d a res,
     fs w !! os_path_join CONFIG_DIR "authid" = Some (File (Json (JObject d))) ->
     d !! "auth_id" = Some (JString a) ->
     d !! "user_id" = None ->
     http_get net (ABNETSYS_BASE ++ "/" ++ a) = Some res ->
     Str.contains "/abnetopac/timeout.html" (resp_text res) = false ->
     _ensure_auth net CONFIG_DIR tty (w, c) =
       Ok tt (World (fs w) (trace w ++ [Get (ABNETSYS_BASE ++ "/" ++ a)]),
              Client d (ABNETSYS_BASE ++ "/" ++ a)) ∧
     ∀ res' tree name,
       http_get net ((ABNETSYS_BASE ++ "/" ++ a) ++ "/NT1?ACC=101") = Some res' ->
       resp_tree res' = Some tree ->
       display_name tree = inr name ->
       status net CONFIG_DIR tty (w, c) =
         Raise (KeyError "user_id")
           (World (fs w)
              (trace w ++ [Get (ABNETSYS_BASE ++ "/" ++ a);
                           Get ((ABNETSYS_BASE ++ "/" ++ a) ++ "/NT1?ACC=101")]))).
Proof.
  split; [|split].
  - intros dir a u [w c] s' H. apply save_ok in H as (Hc & _ & _ & Hf).
    exists (_creds (snd s')). split; [exact Hf|]. rewrite Hc. split.
    + rewrite lookup_insert_ne by discriminate. apply lookup_insert_eq.
    + apply lookup_insert_eq.
  - intros net dir tty w c d H Ha. apply ensure_load_raises.
    rewrite (load_file _ _ _ _ H). cbn [session_base]. rewrite Ha. reflexivity.
  - intros net dir tty w c d a res H Ha Hu Hget Hm.
    pose proof (ensure_valid net dir tty w c d a res H Ha Hget Hm) as Hens.
    split; [exact Hens|]. intros res' tree name Hget' Htree Hname.
    rewrite (status_eq _ _ _ _ _ Hens). cbv zeta. cbn [fst snd base _creds fs trace].
    rewrite Hget', Htree, Hname, Hu, <- app_assoc. reflexivity.
Qed.

Lemma C9_written_record_witness :
  ∃ d, fs (fst (Sample.logged_in, Client (Sample.record Sample.token "alice") Sample.session))
         !! os_path_join Sample.CONFIG_DIR "authid" = Some (File (Json (JObject d))) ∧
       d !! "auth_id" = Some (JString Sample.token) ∧
       d !! "user_id" = Some (JString "alice").
Proof.
  apply (proj1 C9_written_whole_read_unchecked Sample.CONFIG_DIR Sample.token "alice"
           (Sample.empty_disk, __init__)).
  vm_compute. reflexivity.
Defined.

(** C9 (as stated) fails: a stored record without [user_id] is not treated
    as absent.  With no record [_ensure_auth] asks for the user; with the
    partial record it asks nothing and keeps the record as the session, and
    [status] fails on the missing field. *)
Lemma C9_partial_record_is_not_absent :
  Sample.partial_record !! "user_id" = None ∧
  _ensure_auth Sample.net Sample.CONFIG_DIR [] (Sample.empty_disk, __init__)
    = Raise EOFError (World ∅ [Prompt "UCLM user: "]) ∧
  _ensure_auth Sample.net Sample.CONFIG_DIR []
      (Sample.disk (Json (JObject Sample.partial_record)), __init__)
    = Ok tt (World (fs (Sample.disk (Json (JObject Sample.partial_record))))
               [Get Sample.session],
             Client Sample.partial_record Sample.session) ∧
  status Sample.net Sample.CONFIG_DIR []
      (Sample.disk (Json (JObject Sample.partial_record)), __init__)
    = Raise (KeyError "user_id")
        (World (fs (Sample.disk (Json (JObject Sample.partial_record))))
           [Get Sample.session; Get (Sample.session ++ "/NT1?ACC=101")]).
Proof. repeat split; vm_compute; reflexivity. Qed.

(** ** The session resolver *)

(** C5: when the stored session is probed and the answer holds the timeout
    marker, [_ensure_auth] prints the notice, empties the credentials in
    memory, leaves the file system as it is and continues as one run of
    [login]; when that run returns, memory and disk hold the record of the
    new session and [base] is its URL. *)
Theorem C5_expired_session_logs_in_once
    (net : portal) (CONFIG_DIR : string) (tty : list string) (w : world) (c : client)
    (d : gmap string json) (a : string) (res : response) :
  fs w !! os_path_join CONFIG_DIR "authid" = Some (File (Json (JObject d))) ->
  d !! "auth_id" = Some (JString a) ->
  http_get net (ABNETSYS_BASE ++ "/" ++ a) = Some res ->
  Str.contains "/abnetopac/timeout.html" (resp_text res) = true ->
  _ensure_auth net CONFIG_DIR tty (w, c) =
    login net CONFIG_DIR tty
      (World (fs w) (trace w ++ [Get (ABNETSYS_BASE ++ "/" ++ a);
                                 Print "Previous session expired"]),
       Client ∅ (ABNETSYS_BASE ++ "/" ++ a)) ∧
  ∀ s', _ensure_auth net CONFIG_DIR tty (w, c) = Ok tt s' ->
    ∃ auth_id user,
      _creds (snd s') = <["user_id" := JString user]> (<["auth_id" := JString auth_id]> ∅) ∧
      base (snd s') = ABNETSYS_BASE ++ "/" ++ auth_id ∧
      fs (fst s') !! os_path_join CONFIG_DIR "authid" =
        Some (File (Json (JObject (_creds (snd s'))))).
Proof.
  intros H Ha Hget Hm.
  pose proof (ensure_expired net CONFIG_DIR tty w c d a res H Ha Hget Hm) as Hens.
  split; [exact Hens|]. intros s'. rewrite Hens. intros Hok.
  apply login_ok in Hok as (_ & user & _ & _ & _ & _ & auth_id & _ & _ & _ & _ & Hc & Hb & Hf).
  exists auth_id, user. cbn [_creds] in Hc. auto.
Qed.

Lemma C5_expired_session_witness :
  _ensure_auth Sample.expired Sample.CONFIG_DIR ["alice"; "secret"]
      (Sample.logged_in, __init__) =
    login Sample.expired Sample.CONFIG_DIR ["alice"; "secret"]
      (World (fs Sample.logged_in)
         ([] ++ [Get (ABNETSYS_BASE ++ "/" ++ Sample.token);
                 Print "Previous session expired"]),
       Client ∅ (ABNETSYS_BASE ++ "/" ++ Sample.token)) ∧
  ∀ s', _ensure_auth Sample.expired Sample.CONFIG_DIR ["alice"; "secret"]
          (Sample.logged_in, __init__) = Ok tt s' ->
    ∃ auth_id user,
      _creds (snd s') = <["user_id" := JString user]> (<["auth_id" := JString auth_id]> ∅) ∧
      base (snd s') = ABNETSYS_BASE ++ "/" ++ auth_id ∧
      fs (fst s') !! os_path_join Sample.CONFIG_DIR "authid" =
        Some (File (Json (JObject (_creds (snd s'))))).
Proof.
  apply (C5_expired_session_logs_in_once Sample.expired Sample.CONFIG_DIR
           ["alice"; "secret"] Sample.logged_in __init__
           (Sample.record Sample.token "alice") Sample.token
           (Sample.html "<a href=/abnetopac/timeout.html>"
              (Sample.page [Element "p" [] (Some "<a href=/abnetopac/timeout.html>") []])));
    vm_compute; reflexivity.
Defined.

(** The run of the sample: one probe, the notice, one login, a new record. *)
Example expired_session_run :
  _ensure_auth Sample.expired Sample.CONFIG_DIR ["alice"; "secret"]
      (Sample.logged_in, __init__) =
    Ok tt (World (fs Sample.logged_in)
             ([Get Sample.session; Print "Previous session expired"] ++
              attempt_events "alice" "secret" "/O7046/ID5f3a" ++
              [PrintFmt "successfully authenticated as {} ({})"
                        [JString "alice"; JString "Jane Doe"]]),
           Client (Sample.record Sample.token "alice") Sample.session).
Proof. vm_compute. reflexivity. Qed.

(** C10: when the stored session is probed and the answer does not hold
    ['/abnetopac/timeout.html'], whatever else it holds, [_ensure_auth]
    returns after that one request: no login, no prompt, the file system
    untouched, and the stored record as the credentials in memory. *)
Theorem C10_other_probe_answers_accepted
    (net : portal) (CONFIG_DIR : string) (tty : list string) (w : world) (c : client)
    (d : gmap string json) (a : string) (res : response) :
  fs w !! os_path_join CONFIG_DIR "authid" = Some (File (Json (JObject d))) ->
  d !! "auth_id" = Some (JString a) ->
  http_get net (ABNETSYS_BASE ++ "/" ++ a) = Some res ->
  Str.contains "/abnetopac/timeout.html" (resp_text res) = false ->
  _ensure_auth net CONFIG_DIR tty (w, c) =
    Ok tt (World (fs w) (trace w ++ [Get (ABNETSYS_BASE ++ "/" ++ a)]),
           Client d (ABNETSYS_BASE ++ "/" ++ a)).
Proof. apply ensure_valid. Qed.

(** The session root answers with a maintenance notice. *)
Lemma C10_maintenance_probe_witness :
  _ensure_auth (Sample.portal_with Sample.index "En mantenimiento" Sample.welcome
                  Sample.two_loans)
      Sample.CONFIG_DIR ["alice"; "secret"] (Sample.logged_in, __init__) =
    Ok tt (World (fs Sample.logged_in) ([] ++ [Get (ABNETSYS_BASE ++ "/" ++ Sample.token)]),
           Client (Sample.record Sample.token "alice")
                  (ABNETSYS_BASE ++ "/" ++ Sample.token)).
Proof.
  apply (C10_other_probe_answers_accepted _ Sample.CONFIG_DIR _ Sample.logged_in __init__
           (Sample.record Sample.token "alice") Sample.token
           (Sample.html "En mantenimiento"
              (Sample.page [Element "p" [] (Some "En mantenimiento") []])));
    vm_compute; reflexivity.
Defined.

(** ** The authenticator *)







(** * Further properties *)

(** ** What a run may touch *)

(** The credentials file is never the configuration directory itself. *)
Lemma creds_path_ne (CONFIG_DIR : string) : os_path_join CONFIG_DIR "authid" ≠ CONFIG_DIR.
Proof.
  intros H. apply (f_equal String.length) in H. unfold os_path_join in H.
  change (String.prefix "/" "authid") with false in H. cbv beta iota in H.
  destruct (_ || _); rewrite ?length_append in H; cbn [String.length] in H; lia.
Qed.

Lemma extends_refl (w : world) : extends w w.
Proof. exists []. split; [now rewrite app_nil_r | constructor]. Qed.

Lemma extends_trans (w1 w2 w3 : world) : extends w1 w2 -> extends w2 w3 -> extends w1 w3.
Proof.
  intros (e1 & H1 & F1) (e2 & H2 & F2). exists (e1 ++ e2)%list. split.
  - rewrite H2, H1, app_assoc. reflexivity.
  - apply Forall_app. auto.
Qed.

Lemma extends_events (w : world) (f : gmap string node) (evs : list event) :
  Forall to_portal evs -> extends w (World f (trace w ++ evs)).
Proof. intros H. exists evs. auto. Qed.

Lemma attempt_to_portal (user password path : string) :
  Forall to_portal (attempt_events user password path).
Proof.
  unfold attempt_events. repeat constructor. cbn [to_portal]. apply prefix_app.
Qed.

Lemma prefix_app_r (a b c : string) :
  String.prefix a b = true -> String.prefix a (b ++ c) = true.
Proof.
  revert b. induction a as [|x a IH]; intros b H; [destruct (b ++ c)%string; reflexivity|].
  destruct b as [|y b]; [discriminate|]. rewrite append_cons.
  cbn [String.prefix] in *. destruct (ascii_dec x y); [auto | discriminate].
Qed.

Lemma session_to_portal (a suffix : string) :
  String.prefix ABNETSYS_BASE ((ABNETSYS_BASE ++ "/" ++ a) ++ suffix) = true.
Proof. apply prefix_app_r, prefix_app. Qed.

(** Solves [Forall to_portal] for a list of events that is written out. *)
Ltac portal_events :=
  repeat constructor;
  try (cbn [to_portal]; first [apply prefix_app | apply prefix_app_r; assumption]).

Section Effects.

Variable net : portal.
Variable today : date.
Variable CONFIG_DIR : string.

Lemma save_effects a u w c :
  trace (final_world (_save_credentials CONFIG_DIR a u (w, c))) = trace w ∧
  stored CONFIG_DIR (_creds c) (fs w) (fs (final_world (_save_credentials CONFIG_DIR a u (w, c)))).
Proof.
  rewrite save_eq. cbv zeta.
  destruct (os_makedirs_effects CONFIG_DIR (w, c)) as (Ht & Hg & _).
  destruct (os_makedirs CONFIG_DIR (w, c)) as [[] s1|e w1]; cbn [final_world fst] in *.
  - destruct (fs (fst s1) !! os_path_join CONFIG_DIR "authid") as [[f|]|];
      cbn [final_world fst fs trace];
      (split; [first [reflexivity | exact Ht]|]);
      solve [ now constructor 2 | econstructor 3; [exact Hg | reflexivity] ].
  - split; [exact Ht | now constructor 2].
Qed.

(** Whatever [login] does, it sends requests to the portal only and changes
    the file system, if at all, by saving the record of one session. *)
Lemma login_effects tty :
  ∀ w c,
    extends w (final_world (login net CONFIG_DIR tty (w, c))) ∧
    stored CONFIG_DIR (_creds c) (fs w) (fs (final_world (login net CONFIG_DIR tty (w, c)))).
Proof.
  induction tty as [|user|user password rest IH] using pair_ind; intros w c.
  - split; [|now constructor 1]. apply extends_events. repeat constructor.
  - split; [|now constructor 1].
    exists [Prompt "UCLM user: "; Prompt ("password for " ++ user ++ ": ")].
    split; [cbn [login]; unfold_M; cbn; rewrite <- ?app_assoc; reflexivity
           | repeat constructor].
  - rewrite login_attempt. cbv zeta.
    assert (Hget : Forall to_portal [Prompt "UCLM user: ";
                     Prompt ("password for " ++ user ++ ": "); Get ABNETSYS_BASE]).
    { repeat constructor. }
    destruct (http_get net ABNETSYS_BASE) as [res0|];
      [|split; [apply extends_events, Hget | now constructor 1]].
    destruct (resp_tree res0) as [tree|];
      [|split; [apply extends_events, Hget | now constructor 1]].
    destruct (index_path tree) as [e|path];
      [split; [apply extends_events, Hget | now constructor 1]|].
    pose proof (attempt_to_portal user password path) as Hpost.
    destruct (http_post net _ _) as [res|];
      [|split; [apply extends_events, Hpost | now constructor 1]].
    destruct (Str.contains "incorrecta" (resp_text res)).
    { destruct (IH (World (fs w) (trace w ++ attempt_events user password path))
                   (Client (_creds c) ABNETSYS_BASE)) as [Hext Hst].
      split; [|exact Hst]. eapply extends_trans; [|exact Hext].
      apply extends_events, Hpost. }
    destruct (resp_tree res) as [tree'|];
      [|split; [apply extends_events, Hpost | now constructor 1]].
    destruct (display_name tree') as [e|name];
      [split; [apply extends_events, Hpost | now constructor 1]|].
    assert (Hprint : Forall to_portal
              (attempt_events user password path ++
               [PrintFmt "successfully authenticated as {} ({})"
                         [JString user; JString name]])).
    { apply Forall_app. split; [exact Hpost | repeat constructor]. }
    cbn [trace]. rewrite <- app_assoc.
    destruct (session_token (resp_url res)) as [e|auth_id];
      [split; [apply extends_events, Hprint | now constructor 1]|].
    match goal with |- context [_save_credentials _ _ _ (?w3, ?c1)] =>
      destruct (save_effects auth_id user w3 c1) as [Ht Hst] end.
    split; [|exact Hst].
    exists (attempt_events user password path ++
            [PrintFmt "successfully authenticated as {} ({})"
                      [JString user; JString name]])%list.
    split; [rewrite Ht; reflexivity | exact Hprint].
Qed.

(** With no credentials file, the session is resolved by [login]. *)
Lemma ensure_no_file tty w c :
  fs w !! os_path_join CONFIG_DIR "authid" = None ->
  _creds c !! "auth_id" = None ->
  _ensure_auth net CONFIG_DIR tty (w, c) = login net CONFIG_DIR tty (w, c).
Proof.
  intros H Hc. unfold _ensure_auth. unfold mbind at 1. unfold M_bind at 1.
  rewrite (load_absent _ _ _ H). unfold_M. cbn -[login]. rewrite Hc. reflexivity.
Qed.

Lemma ensure_dir tty w c :
  fs w !! os_path_join CONFIG_DIR "authid" = Some Dir ->
  _ensure_auth net CONFIG_DIR tty (w, c) = Raise IsADirectoryError w.
Proof.
  intros H. apply ensure_load_raises. unfold _load_credentials. unfold_M.
  cbn. rewrite H. cbn. rewrite H. reflexivity.
Qed.

(** A transport failure of the probe ends the resolution: one request, no
    login, nothing written. *)
Lemma ensure_probe_fails tty w c d a :
  fs w !! os_path_join CONFIG_DIR "authid" = Some (File (Json (JObject d))) ->
  d !! "auth_id" = Some (JString a) ->
  http_get net (ABNETSYS_BASE ++ "/" ++ a) = None ->
  _ensure_auth net CONFIG_DIR tty (w, c) =
    Raise RequestException (World (fs w) (trace w ++ [Get (ABNETSYS_BASE ++ "/" ++ a)])).
Proof.
  intros H Ha Hget. unfold _ensure_auth.
  unfold mbind at 1. unfold M_bind at 1. rewrite (load_record _ _ _ _ _ H Ha).
  unfold requests_get. unfold_M. cbn -[ABNETSYS_BASE].
  rewrite Ha, Hget. reflexivity.
Qed.

Lemma usable_dec (content : file_data) : usable content ∨ ¬ usable content.
Proof.
  destruct content as [raw|v]; [right; intros (d & a & H & _); discriminate|].
  destruct v as [| | | | | |d]; try (right; intros (d' & a & H & _); discriminate).
  destruct (d !! "auth_id") as [[| | | |a| |]|] eqn:E;
    try (right; intros (d' & a' & [= <-] & H); congruence).
  left. exists d, a. auto.
Qed.

(** Resolving the session from a client with no credentials in memory. *)
Lemma ensure_effects tty w c :
  _creds c = ∅ ->
  extends w (final_world (_ensure_auth net CONFIG_DIR tty (w, c))) ∧
  stored CONFIG_DIR ∅ (fs w) (fs (final_world (_ensure_auth net CONFIG_DIR tty (w, c)))) ∧
  ∀ s1, _ensure_auth net CONFIG_DIR tty (w, c) = Ok tt s1 ->
        String.prefix ABNETSYS_BASE (base (snd s1)) = true.
Proof.
  intros Hc.
  destruct (fs w !! os_path_join CONFIG_DIR "authid") as [[content|]|] eqn:E.
  - destruct (usable_dec content) as [(d & a & -> & Ha) | Hbad].
    + destruct (http_get net (ABNETSYS_BASE ++ "/" ++ a)) as [res|] eqn:Hget.
      * destruct (Str.contains "/abnetopac/timeout.html" (resp_text res)) eqn:Hm.
        -- rewrite (ensure_expired net _ tty _ c _ _ _ E Ha Hget Hm).
           match goal with |- context [login _ _ _ (?w1, ?c1)] =>
             destruct (login_effects tty w1 c1) as [Hext Hst];
             pose proof (login_ok net CONFIG_DIR tty w1 c1) as Hok end.
           split; [|split; [exact Hst|]].
           ++ eapply extends_trans; [|exact Hext]. apply extends_events.
              portal_events.
           ++ intros s1 H1. apply Hok in H1 as (_ & _ & _ & _ & _ & _ & a' & _ & _ & _ & _ & _ & Hb & _).
              rewrite Hb. apply prefix_app.
        -- rewrite (ensure_valid net _ tty _ c _ _ _ E Ha Hget Hm).
           split; [|split; [now constructor 1|]].
           ++ apply extends_events. portal_events.
           ++ intros s1 [= <-]. apply prefix_app.
      * rewrite (ensure_probe_fails _ _ c _ _ E Ha Hget).
        split; [|split; [now constructor 1 | discriminate]].
        apply extends_events. portal_events.
    + destruct (load_unusable _ _ c _ E Hbad) as (e & _ & Hload).
      rewrite (ensure_load_raises net _ tty _ _ _ Hload).
      split; [apply extends_refl | split; [now constructor 1 | discriminate]].
  - rewrite (ensure_dir _ _ _ E).
    split; [apply extends_refl | split; [now constructor 1 | discriminate]].
  - rewrite (ensure_no_file _ _ _ E) by (rewrite Hc; apply lookup_empty).
    destruct (login_effects tty w c) as [Hext Hst].
    rewrite Hc in Hst. split; [exact Hext | split; [exact Hst|]].
    intros s1 H1. apply login_ok in H1 as (_ & _ & _ & _ & _ & _ & a' & _ & _ & _ & _ & _ & Hb & _).
    rewrite Hb. apply prefix_app.
Qed.

Lemma status_effects tty w c :
  _creds c = ∅ ->
  extends w (final_world (status net CONFIG_DIR tty (w, c))) ∧
  stored CONFIG_DIR ∅ (fs w) (fs (final_world (status net CONFIG_DIR tty (w, c)))).
Proof.
  intros Hc. destruct (ensure_effects tty w c Hc) as (Hext & Hst & Hbase).
  destruct (_ensure_auth net CONFIG_DIR tty (w, c)) as [[] s1|e w1] eqn:Hens.
  - specialize (Hbase s1 eq_refl). cbn [final_world] in Hext, Hst.
    assert (Hget : extends w (World (fs (fst s1))
                     (trace (fst s1) ++ [Get (base (snd s1) ++ "/NT1?ACC=101")]))).
    { eapply extends_trans; [exact Hext|]. apply extends_events.
      portal_events. }
    rewrite (status_eq _ _ _ _ _ Hens). cbv zeta.
    destruct (http_get net _) as [res|]; [|split; [exact Hget | exact Hst]].
    destruct (resp_tree res) as [tree|]; [|split; [exact Hget | exact Hst]].
    destruct (display_name tree) as [e|name]; [split; [exact Hget | exact Hst]|].
    destruct (_creds (snd s1) !! "user_id") as [v|]; [|split; [exact Hget | exact Hst]].
    split; [|exact Hst]. eapply extends_trans; [exact Hext|]. apply extends_events.
    portal_events.
  - rewrite (status_ensure_raises _ _ _ _ _ _ Hens). auto.
Qed.

Lemma list_effects tty w c :
  _creds c = ∅ ->
  extends w (final_world (list_ net today CONFIG_DIR tty (w, c))) ∧
  stored CONFIG_DIR ∅ (fs w) (fs (final_world (list_ net today CONFIG_DIR tty (w, c)))).
Proof.
  intros Hc. destruct (ensure_effects tty w c Hc) as (Hext & Hst & Hbase).
  destruct (_ensure_auth net CONFIG_DIR tty (w, c)) as [[] s1|e w1] eqn:Hens.
  - specialize (Hbase s1 eq_refl). cbn [final_world] in Hext, Hst.
    assert (Hget : extends w (World (fs (fst s1))
                     (trace (fst s1) ++ [Get (base (snd s1) ++ "/NT29?ACC=210")]))).
    { eapply extends_trans; [exact Hext|]. apply extends_events.
      portal_events. }
    rewrite (list_eq _ _ _ _ _ _ Hens). cbv zeta.
    destruct (http_get net _) as [res|]; [|split; [exact Hget | exact Hst]].
    destruct (resp_tree res) as [tree|]; [|split; [exact Hget | exact Hst]].
    destruct (loans_of_rows today _) as [e|table]; [split; [exact Hget | exact Hst]|].
    split; [|exact Hst]. eapply extends_trans; [exact Hext|]. apply extends_events.
    portal_events.
  - rewrite (list_ensure_raises _ _ _ _ _ _ _ Hens). auto.
Qed.

End Effects.

(** Every command: requests to the portal only, and at most one record
    saved. *)
Lemma main_effects (home : string) (net : portal) (today : date)
    (argv tty : list string) (w : world) :
  extends w (final_world (main (Some home) net today argv tty w)) ∧
  stored (os_path_join home ".config/absystool") ∅ (fs w)
         (fs (final_world (main (Some home) net today argv tty w))).
Proof.
  assert (Husage : extends w (final_world (emit (Print __doc__) (w, __init__))) ∧
                   stored (os_path_join home ".config/absystool") ∅ (fs w)
                          (fs (final_world (emit (Print __doc__) (w, __init__))))).
  { split; [|now constructor 1]. apply extends_events. repeat constructor. }
  unfold main. destruct (argv !! 1%nat) as [cmd|]; [|exact Husage].
  destruct (String.eqb cmd "login"); [apply (login_effects net _ tty w __init__)|].
  destruct (String.eqb cmd "logout").
  { rewrite logout_not_loaded by apply lookup_empty.
    split; [|now constructor 1]. apply extends_events. repeat constructor. }
  destruct (String.eqb cmd "status"); [apply status_effects; reflexivity|].
  destruct (String.eqb cmd "list"); [apply list_effects; reflexivity|].
  exact Husage.
Qed.

(** Directories are added only at initial parts of [dir]; the credentials
    path is longer than [dir]. *)
Lemma grown_file (dir : string) (f f' : gmap string node) :
  grown dir f f' -> f' !! os_path_join dir "authid" = f !! os_path_join dir "authid".
Proof.
  intros H. destruct (H (os_path_join dir "authid")) as [E|(_ & _ & Hp)]; [exact E|].
  apply prefix_length in Hp. unfold os_path_join in Hp.
  change (String.prefix "/" "authid") with false in Hp. cbv beta iota in Hp.
  destruct (_ || _); rewrite ?length_append in Hp; cbn [String.length] in Hp; lia.
Qed.




Lemma stored_file (dir : string) (creds : gmap string json) (f f' : gmap string node) :
  stored dir creds f f' ->
  f' !! os_path_join dir "authid" = f !! os_path_join dir "authid" ∨
  ∃ a u, f' !! os_path_join dir "authid" =
           Some (File (Json (JObject (with_session creds a u)))).
Proof.
  intros [->|Hg|a u f1 _ ->].
  - left. reflexivity.
  - left. apply grown_file, Hg.
  - right. exists a, u. apply lookup_insert_eq.
Qed.

(** X1: whatever the command, the arguments, the portal's answers and the
    lines typed, and whether the run returns or raises, every request of the
    run goes to a URL that starts with [ABNETSYS_BASE]. *)
Theorem requests_go_to_the_portal (home : string) (net : portal) (today : date)
    (argv tty : list string) (w : world) :
  ∃ evs, trace (final_world (main (Some home) net today argv tty w)) = (trace w ++ evs)%list ∧
         Forall to_portal evs.
Proof. apply main_effects. Qed.


(** X3: after any command the credentials file is as it was before, or it
    holds a JSON object with exactly the two string fields [auth_id] and
    [user_id]. *)
Theorem credentials_file_untouched_or_whole (home : string) (net : portal) (today : date)
    (argv tty : list string) (w : world) :
  fs (final_world (main (Some home) net today argv tty w))
     !! os_path_join (os_path_join home ".config/absystool") "authid"
  = fs w !! os_path_join (os_path_join home ".config/absystool") "authid" ∨
  ∃ auth_id user_id,
    fs (final_world (main (Some home) net today argv tty w))
       !! os_path_join (os_path_join home ".config/absystool") "authid"
    = Some (File (Json (JObject (<["user_id" := JString user_id]>
                                   (<["auth_id" := JString auth_id]> ∅))))).
Proof.
  destruct (main_effects home net today argv tty w) as [_ Hst]. apply (stored_file _ _ _ _ Hst).
Qed.

(** ** The credential store on one object *)

(** X4: let [parent] be the directory [CONFIG_DIR] lies in.  With [parent]
    in place, [_save_credentials] returns exactly when [CONFIG_DIR] is not
    a regular file and the credentials path is not a directory: an existing
    directory and an existing file, whatever it holds, are no obstacle.
    With a regular file where [parent] should be, it raises
    [NotADirectoryError] and changes nothing.  And whenever it returns,
    [CONFIG_DIR] is a directory afterwards. *)
Theorem save_returns_iff (CONFIG_DIR auth_id user_id parent leaf : string)
    (w : world) (c : client) :
  leaf_split CONFIG_DIR = (parent, leaf) ->
  (stat (fs w) parent = Some Dir ->
   ((∃ s', _save_credentials CONFIG_DIR auth_id user_id (w, c) = Ok tt s') ↔
    (∀ content, stat (fs w) CONFIG_DIR ≠ Some (File content)) ∧
    fs w !! os_path_join CONFIG_DIR "authid" ≠ Some Dir)) ∧
  (parent ≠ "" ->
   (∃ content, stat (fs w) parent = Some (File content)) ->
   stat (fs w) CONFIG_DIR = None ->
   _save_credentials CONFIG_DIR auth_id user_id (w, c) = Raise NotADirectoryError w) ∧
  (leaf ≠ "." ->
   ∀ s', _save_credentials CONFIG_DIR auth_id user_id (w, c) = Ok tt s' ->
         stat (fs (fst s')) CONFIG_DIR = Some Dir).
Proof.
  intros Hsplit.
  assert (Hp : fst (leaf_split CONFIG_DIR) = parent) by (rewrite Hsplit; reflexivity).
  assert (Hl : snd (leaf_split CONFIG_DIR) = leaf) by (rewrite Hsplit; reflexivity).
  rewrite save_eq. cbv zeta. split; [|split].
  - intros Hdir.
    rewrite os_makedirs_parent by (right; cbn [fst fs]; rewrite Hp, Hdir; eauto).
    rewrite mkdir_exist_ok_parent by (rewrite Hp; exact Hdir).
    destruct (stat (fs w) CONFIG_DIR) as [[content|]|] eqn:E; cbn [fst fs].
    + split; [intros [s' H]; discriminate | intros [H _]; exfalso; eapply H; reflexivity].
    + destruct (fs w !! os_path_join CONFIG_DIR "authid") as [[f|]|] eqn:E'; split;
        try (intros [s' H]; discriminate); try (intros [_ H]; congruence);
        try (intros _; split; congruence); intros _; eauto.
    + rewrite lookup_insert_ne by (apply not_eq_sym, creds_path_ne).
      destruct (fs w !! os_path_join CONFIG_DIR "authid") as [[f|]|] eqn:E'; split;
        try (intros [s' H]; discriminate); try (intros [_ H]; congruence);
        try (intros _; split; congruence); intros _; eauto.
  - intros Hne [content Hfile] Hnone.
    rewrite os_makedirs_parent by (right; cbn [fst fs]; rewrite Hp, Hfile; eauto).
    rewrite (mkdir_exist_ok_under_file _ _ _ content) by (rewrite ?Hp; assumption).
    reflexivity.
  - intros Hdot s'.
    destruct (os_makedirs CONFIG_DIR (w, c)) as [[] s1|e w1] eqn:E; [|discriminate].
    apply os_makedirs_made in E; [|rewrite Hl; exact Hdot].
    assert (Hkeep : stat (<[os_path_join CONFIG_DIR "authid" :=
                             File (Json (JObject (<["user_id" := JString user_id]>
                                                    (<["auth_id" := JString auth_id]>
                                                       (_creds c)))))]> (fs (fst s1)))
                         CONFIG_DIR = Some Dir).
    { unfold stat in *. destruct (_ && _); [reflexivity|].
      rewrite lookup_insert_ne by apply creds_path_ne. exact E. }
    destruct (fs (fst s1) !! os_path_join CONFIG_DIR "authid") as [[f|]|];
      [|discriminate|]; intros [= <-]; exact Hkeep.
Qed.

Lemma save_returns_witness :
  (∃ s', _save_credentials Sample.CONFIG_DIR Sample.token "alice"
           (World Sample.parents [], __init__) = Ok tt s') ∧
  _save_credentials Sample.CONFIG_DIR Sample.token "alice"
    (World (<["/home/alice/.config" := File (Raw "")]> Sample.parents) [], __init__) =
    Raise NotADirectoryError
      (World (<["/home/alice/.config" := File (Raw "")]> Sample.parents) []).
Proof.
  split.
  - apply (proj1 (save_returns_iff Sample.CONFIG_DIR Sample.token "alice"
                    "/home/alice/.config" "absystool"
                    (World Sample.parents []) __init__ eq_refl));
      [vm_compute; reflexivity|].
    split; [intros content|]; vm_compute; discriminate.
  - apply (proj1 (proj2 (save_returns_iff Sample.CONFIG_DIR Sample.token "alice"
                    "/home/alice/.config" "absystool"
                    (World (<["/home/alice/.config" := File (Raw "")]> Sample.parents) [])
                    __init__ eq_refl))).
    + discriminate.
    + exists (Raw ""). vm_compute. reflexivity.
    + vm_compute. reflexivity.
Defined.

(** X5: on the object that saved them, [logout] removes the credentials:
    the file is gone and [_load_credentials], by any client, finds nothing
    and changes nothing. *)
Theorem save_logout_load (CONFIG_DIR auth_id user_id : string) (s s1 : state) :
  _save_credentials CONFIG_DIR auth_id user_id s = Ok tt s1 ->
  ∃ s2, logout CONFIG_DIR s1 = Ok tt s2 ∧
        fs (fst s2) !! os_path_join CONFIG_DIR "authid" = None ∧
        ∀ c0, _load_credentials CONFIG_DIR (fst s2, c0) = Ok tt (fst s2, c0).
Proof.
  destruct s as [w c], s1 as [w1 c1]. intros H.
  apply save_ok in H as (Hc & _ & _ & Hf). cbn [fst snd] in *.
  assert (Ha : _creds c1 !! "auth_id" = Some (JString auth_id)).
  { rewrite Hc, lookup_insert_ne by discriminate. apply lookup_insert_eq. }
  rewrite (logout_in_memory _ _ _ _ _ Ha Hf). eexists. split; [reflexivity|].
  cbn [fst fs]. split; [apply lookup_delete_eq|].
  intros c0. apply load_absent. cbn [fs]. apply lookup_delete_eq.
Qed.

Lemma save_logout_load_witness :
  ∃ s2, logout Sample.CONFIG_DIR
          (Sample.logged_in, Client (Sample.record Sample.token "alice") Sample.session)
        = Ok tt s2 ∧
        fs (fst s2) !! os_path_join Sample.CONFIG_DIR "authid" = None ∧
        ∀ c0, _load_credentials Sample.CONFIG_DIR (fst s2, c0) = Ok tt (fst s2, c0).
Proof.
  apply (save_logout_load Sample.CONFIG_DIR Sample.token "alice"
           (Sample.empty_disk, __init__)).
  vm_compute. reflexivity.
Defined.

(** X6: [logout] does not forget the credentials in memory: a second
    [logout] on the same object finds them, tries to remove the file that is
    gone and raises [FileNotFoundError]. *)
Theorem logout_twice_raises (CONFIG_DIR : string) (w : world) (c : client) (v : json)
    (content : file_data) :
  _creds c !! "auth_id" = Some v ->
  fs w !! os_path_join CONFIG_DIR "authid" = Some (File content) ->
  ∃ s2, logout CONFIG_DIR (w, c) = Ok tt s2 ∧
        logout CONFIG_DIR s2 = Raise FileNotFoundError (fst s2).
Proof.
  intros Hc Hf. rewrite (logout_in_memory _ _ _ _ _ Hc Hf). eexists. split; [reflexivity|].
  unfold logout. unfold_M. cbn. rewrite Hc. cbn. rewrite lookup_delete_eq. reflexivity.
Qed.

Lemma logout_twice_witness :
  ∃ s2, logout Sample.CONFIG_DIR
          (Sample.logged_in, Client (Sample.record Sample.token "alice") Sample.session)
        = Ok tt s2 ∧
        logout Sample.CONFIG_DIR s2 = Raise FileNotFoundError (fst s2).
Proof.
  apply (logout_twice_raises Sample.CONFIG_DIR Sample.logged_in _ (JString Sample.token)
           (Json (JObject (Sample.record Sample.token "alice")))).
  - vm_compute. reflexivity.
  - vm_compute. reflexivity.
Defined.

(** ** The session resolver at its edges *)

(** X7: when the probe of the stored session cannot be sent or answered,
    [_ensure_auth], [status] and [list] end with the transport exception
    after that single request: no second try, no login, nothing written. *)
Theorem probe_failure_is_not_retried (net : portal) (today : date) (CONFIG_DIR : string)
    (tty : list string) (w : world) (c : client) (d : gmap string json) (a : string) :
  fs w !! os_path_join CONFIG_DIR "authid" = Some (File (Json (JObject d))) ->
  d !! "auth_id" = Some (JString a) ->
  http_get net (ABNETSYS_BASE ++ "/" ++ a) = None ->
  _ensure_auth net CONFIG_DIR tty (w, c) =
    Raise RequestException (World (fs w) (trace w ++ [Get (ABNETSYS_BASE ++ "/" ++ a)])) ∧
  status net CONFIG_DIR tty (w, c) =
    Raise RequestException (World (fs w) (trace w ++ [Get (ABNETSYS_BASE ++ "/" ++ a)])) ∧
  list_ net today CONFIG_DIR tty (w, c) =
    Raise RequestException (World (fs w) (trace w ++ [Get (ABNETSYS_BASE ++ "/" ++ a)])).
Proof.
  intros H Ha Hget. pose proof (ensure_probe_fails net _ tty _ c _ _ H Ha Hget) as Hens.
  auto using status_ensure_raises, list_ensure_raises.
Qed.

Lemma probe_failure_witness :
  _ensure_auth (Portal (fun _ => None) (fun _ _ => None)) Sample.CONFIG_DIR ["alice"; "secret"]
      (Sample.logged_in, __init__) =
    Raise RequestException
      (World (fs Sample.logged_in) ([] ++ [Get (ABNETSYS_BASE ++ "/" ++ Sample.token)])) ∧
  status (Portal (fun _ => None) (fun _ _ => None)) Sample.CONFIG_DIR ["alice"; "secret"]
      (Sample.logged_in, __init__) =
    Raise RequestException
      (World (fs Sample.logged_in) ([] ++ [Get (ABNETSYS_BASE ++ "/" ++ Sample.token)])) ∧
  list_ (Portal (fun _ => None) (fun _ _ => None)) Sample.today Sample.CONFIG_DIR
      ["alice"; "secret"] (Sample.logged_in, __init__) =
    Raise RequestException
      (World (fs Sample.logged_in) ([] ++ [Get (ABNETSYS_BASE ++ "/" ++ Sample.token)])).
Proof.
  apply (probe_failure_is_not_retried _ Sample.today Sample.CONFIG_DIR _ Sample.logged_in
           __init__ (Sample.record Sample.token "alice") Sample.token);
    vm_compute; reflexivity.
Defined.

(** X8: with no credentials file and nothing to read on the terminal, the
    commands [status] and [list] end with [EOFError] at the first prompt:
    no request has been sent and nothing has been written. *)
Theorem no_record_no_input (home : string) (net : portal) (today : date)
    (prog cmd : string) (w : world) :
  cmd = "status" ∨ cmd = "list" ->
  fs w !! os_path_join (os_path_join home ".config/absystool") "authid" = None ->
  main (Some home) net today [prog; cmd] [] w =
    Raise EOFError (World (fs w) (trace w ++ [Prompt "UCLM user: "])).
Proof.
  intros [-> | ->] H; unfold main; cbn [lookup list_lookup String.eqb Ascii.eqb Bool.eqb].
  - apply status_ensure_raises. rewrite (ensure_no_file _ _ _ _ _ H) by apply lookup_empty.
    reflexivity.
  - apply list_ensure_raises. rewrite (ensure_no_file _ _ _ _ _ H) by apply lookup_empty.
    reflexivity.
Qed.

Lemma no_record_no_input_witness :
  main (Some Sample.HOME) Sample.net Sample.today ["absystool"; "list"] [] Sample.empty_disk =
    Raise EOFError (World (fs Sample.empty_disk)
                      (trace Sample.empty_disk ++ [Prompt "UCLM user: "])).
Proof.
  apply (no_record_no_input Sample.HOME Sample.net Sample.today "absystool" "list").
  - right. reflexivity.
  - vm_compute. reflexivity.
Defined.

(** ** The loans extractor, read backwards *)

(** Reduces the binds of [result] whose first computation is known. *)
Ltac result_step := cbn [mbind result_bind mret result_ret].

Lemma mk_date_inv (y m d : Z) (dt : date) : mk_date y m d = inr dt -> dt = Date y m d.
Proof.
  unfold mk_date. destruct (negb _); [discriminate|].
  destruct (_ && _); [|discriminate]. intros [= <-]. reflexivity.
Qed.

Lemma getitem_inv {A : Type} (l : list A) (i : nat) (x : A) :
  getitem l i = inr x -> l !! i = Some x.
Proof. unfold getitem. destruct (l !! i); [intros [= <-]; reflexivity | discriminate]. Qed.

Lemma text_strip_inv (cell : element) (s : string) :
  text_strip cell = inr s -> ∃ t, text cell = Some t ∧ s = Str.strip t.
Proof. unfold text_strip. destruct (text cell) as [t|]; [intros [= <-]; eauto | discriminate]. Qed.

(** A row that [loan_of_row] accepts is a well-formed row, and the record is
    the one it denotes. *)
Lemma loan_of_row_inv (today : date) (row : element) (l : loan) :
  loan_of_row today row = inr l -> row_denotes today row l.
Proof.
  unfold loan_of_row.
  destruct (getitem (getchildren row) 2) as [e|c3] eqn:H3; result_step; [discriminate|].
  destruct (text_strip c3) as [e|t3] eqn:Ht3; result_step; [discriminate|].
  destruct (getitem (getchildren row) 3) as [e|c4] eqn:H4; result_step; [discriminate|].
  destruct (text_strip c4) as [e|t4] eqn:Ht4; result_step; [discriminate|].
  apply text_strip_inv in Ht3 as (s3 & Hs3 & ->). apply text_strip_inv in Ht4 as (s4 & Hs4 & ->).
  destruct (Str.split "/" (Str.strip s4)) as [|sd [|sm [|sy more]]] eqn:Hsplit;
    cbn [getitem lookup list_lookup]; result_step; try discriminate.
  destruct (Str.int10 sy) as [e|y] eqn:Hy; result_step; [discriminate|].
  destruct (Str.int10 sm) as [e|m] eqn:Hm; result_step; [discriminate|].
  destruct (Str.int10 sd) as [e|d] eqn:Hd; result_step; [discriminate|].
  destruct (mk_date y m d) as [e|dt] eqn:Hdate; result_step; [discriminate|].
  intros [= <-]. pose proof (mk_date_inv _ _ _ _ Hdate) as ->.
  exists c3, s3, c4, s4, sd, sm, sy, more, d, m, y.
  repeat split; auto using getitem_inv.
Qed.

Lemma loans_of_rows_inv (today : date) (rows : list element) (loans : list loan) :
  loans_of_rows today rows = inr loans -> Forall2 (row_denotes today) rows loans.
Proof.
  revert loans. induction rows as [|row rows IH]; intros loans.
  - intros [= <-]. constructor.
  - cbn [loans_of_rows].
    destruct (loan_of_row today row) as [e|l] eqn:Hl; result_step; [discriminate|].
    destruct (loans_of_rows today rows) as [e|ls]; result_step; [discriminate|].
    intros [= <-]. constructor; [apply loan_of_row_inv, Hl | apply IH; reflexivity].
Qed.

(** The exceptions of one row. *)
Lemma loan_of_row_exceptions (today : date) (row : element) (e : exn) :
  loan_of_row today row = inl e ->
  e = IndexError ∨ e = AttributeError ∨ e = ValueError ∨ e = OverflowError.
Proof.
  assert (Hint : ∀ s e', Str.int10 s = inl e' -> e' = ValueError).
  { intros s e'. unfold Str.int10. destruct (Str.code_points s) as [cps|]; [|congruence].
    destruct (match List.rev _ with [] => _ | _ => _ end) as [negative body].
    destruct (Str.digits 0 0 false body) as [[v n]|]; [|congruence].
    destruct (Str.max_str_digits <? n)%Z; congruence. }
  assert (Hget : ∀ (A : Type) (l : list A) i e', getitem l i = inl e' -> e' = IndexError).
  { intros A l' i e'. unfold getitem. destruct (l' !! i); congruence. }
  assert (Htext : ∀ c e', text_strip c = inl e' -> e' = AttributeError).
  { intros c e'. unfold text_strip. destruct (text c); congruence. }
  assert (Hdate : ∀ y m d e', mk_date y m d = inl e' -> e' = OverflowError ∨ e' = ValueError).
  { intros y m d e'. unfold mk_date. destruct (negb _); [intros [= <-]; auto|].
    destruct (_ && _); [discriminate | intros [= <-]; auto]. }
  unfold loan_of_row.
  destruct (getitem (getchildren row) 2) as [e1|c3] eqn:H3; result_step;
    [intros [= <-]; rewrite (Hget _ _ _ _ H3); auto|].
  destruct (text_strip c3) as [e1|t3] eqn:Ht3; result_step;
    [intros [= <-]; rewrite (Htext _ _ Ht3); auto|].
  destruct (getitem (getchildren row) 3) as [e1|c4] eqn:H4; result_step;
    [intros [= <-]; rewrite (Hget _ _ _ _ H4); auto|].
  destruct (text_strip c4) as [e1|t4] eqn:Ht4; result_step;
    [intros [= <-]; rewrite (Htext _ _ Ht4); auto|].
  destruct (getitem (Str.split "/" t4) 2) as [e1|sy] eqn:H2; result_step;
    [intros [= <-]; rewrite (Hget _ _ _ _ H2); auto|].
  destruct (Str.int10 sy) as [e1|y] eqn:Hy; result_step;
    [intros [= <-]; rewrite (Hint _ _ Hy); auto|].
  destruct (getitem (Str.split "/" t4) 1) as [e1|sm] eqn:H1; result_step;
    [intros [= <-]; rewrite (Hget _ _ _ _ H1); auto|].
  destruct (Str.int10 sm) as [e1|m] eqn:Hm; result_step;
    [intros [= <-]; rewrite (Hint _ _ Hm); auto|].
  destruct (getitem (Str.split "/" t4) 0) as [e1|sd] eqn:H0; result_step;
    [intros [= <-]; rewrite (Hget _ _ _ _ H0); auto|].
  destruct (Str.int10 sd) as [e1|d] eqn:Hd; result_step;
    [intros [= <-]; rewrite (Hint _ _ Hd); auto|].
  destruct (mk_date y m d) as [e1|dt] eqn:Hdt; result_step; [|discriminate].
  intros [= <-]. destruct (Hdate _ _ _ _ Hdt) as [-> | ->]; auto.
Qed.

Lemma loans_of_rows_exceptions (today : date) (rows : list element) (e : exn) :
  loans_of_rows today rows = inl e ->
  e = IndexError ∨ e = AttributeError ∨ e = ValueError ∨ e = OverflowError.
Proof.
  induction rows as [|row rows IH]; [discriminate|].
  cbn [loans_of_rows].
  destruct (loan_of_row today row) as [e1|l] eqn:Hl; result_step;
    [intros [= <-]; eapply loan_of_row_exceptions, Hl|].
  destruct (loans_of_rows today rows) as [e1|ls]; result_step; [|discriminate].
  intros [= <-]. apply IH. reflexivity.
Qed.

(** What a [list] that returns has done. *)
Lemma list_ok_inv (net : portal) (today : date) (CONFIG_DIR : string)
    (tty : list string) (s s1 s' : state) :
  _ensure_auth net CONFIG_DIR tty s = Ok tt s1 ->
  list_ net today CONFIG_DIR tty s = Ok tt s' ->
  ∃ res tree loans,
    http_get net (base (snd s1) ++ "/NT29?ACC=210") = Some res ∧
    resp_tree res = Some tree ∧
    Forall2 (row_denotes today) (drop 1 (xpath_loans tree)) loans ∧
    s' = (World (fs (fst s1))
            (trace (fst s1) ++
             [Get (base (snd s1) ++ "/NT29?ACC=210");
              PrintTable ["Title"; "Due date"; "Remaining"] loans]),
          snd s1).
Proof.
  intros Hens. rewrite (list_eq _ _ _ _ _ _ Hens). cbv zeta.
  destruct (http_get net _) as [res|] eqn:Hget; [|discriminate].
  destruct (resp_tree res) as [tree|] eqn:Htree; [|discriminate].
  destruct (loans_of_rows today _) as [e|loans] eqn:Hl; [discriminate|].
  intros [= <-]. exists res, tree, loans.
  repeat split; auto using loans_of_rows_inv.
Qed.

(** X9: once the session is resolved, a [list] that returns has read a
    loans page and printed one record for every row after the first, in
    order, each row being well formed: no row is skipped or left out. *)
Theorem list_returns_only_whole_tables (net : portal) (today : date) (CONFIG_DIR : string)
    (tty : list string) (s s1 s' : state) :
  _ensure_auth net CONFIG_DIR tty s = Ok tt s1 ->
  list_ net today CONFIG_DIR tty s = Ok tt s' ->
  ∃ res tree loans,
    http_get net (base (snd s1) ++ "/NT29?ACC=210") = Some res ∧
    resp_tree res = Some tree ∧
    Forall2 (row_denotes today) (drop 1 (xpath_loans tree)) loans ∧
    s' = (World (fs (fst s1))
            (trace (fst s1) ++
             [Get (base (snd s1) ++ "/NT29?ACC=210");
              PrintTable ["Title"; "Due date"; "Remaining"] loans]),
          snd s1).
Proof. apply list_ok_inv. Qed.

Lemma list_returns_witness :
  ∃ res tree loans,
    http_get Sample.net
      (base (snd (World (fs Sample.logged_in) [Get Sample.session],
                  Client (Sample.record Sample.token "alice") Sample.session))
       ++ "/NT29?ACC=210") = Some res ∧
    resp_tree res = Some tree ∧
    Forall2 (row_denotes Sample.today) (drop 1 (xpath_loans tree)) loans ∧
    (World (fs Sample.logged_in)
       [Get Sample.session; Get (Sample.session ++ "/NT29?ACC=210");
        PrintTable ["Title"; "Due date"; "Remaining"]
          [Loan "Don Quijote" (Date 2024 1 1) (-9); Loan "La Regenta" (Date 2024 2 15) 36]],
     Client (Sample.record Sample.token "alice") Sample.session)
    = (World (fs Sample.logged_in)
         ([Get Sample.session] ++
          [Get (Sample.session ++ "/NT29?ACC=210");
           PrintTable ["Title"; "Due date"; "Remaining"] loans]),
       Client (Sample.record Sample.token "alice") Sample.session).
Proof.
  apply (list_returns_only_whole_tables Sample.net Sample.today Sample.CONFIG_DIR []
           (Sample.logged_in, __init__)
           (World (fs Sample.logged_in) [Get Sample.session],
            Client (Sample.record Sample.token "alice") Sample.session)).
  - vm_compute. reflexivity.
  - exact list_two_loans.
Defined.

(** X10: once the session is resolved, [list] can end only with a failed
    request, an unparsable page, or the [IndexError], [AttributeError],
    [ValueError] or [OverflowError] of a row; in every case after its one
    request and before anything is printed. *)
Theorem list_raises_before_printing (net : portal) (today : date) (CONFIG_DIR : string)
    (tty : list string) (s s1 : state) (e : exn) (w' : world) :
  _ensure_auth net CONFIG_DIR tty s = Ok tt s1 ->
  list_ net today CONFIG_DIR tty s = Raise e w' ->
  w' = World (fs (fst s1)) (trace (fst s1) ++ [Get (base (snd s1) ++ "/NT29?ACC=210")]) ∧
  (e = RequestException ∨ e = ParserError ∨ e = IndexError ∨ e = AttributeError ∨
   e = ValueError ∨ e = OverflowError).
Proof.
  intros Hens. rewrite (list_eq _ _ _ _ _ _ Hens). cbv zeta.
  destruct (http_get net _) as [res|]; [|intros [= He Hw]; subst; auto].
  destruct (resp_tree res) as [tree|]; [|intros [= He Hw]; subst; auto].
  destruct (loans_of_rows today _) as [e1|loans] eqn:Hl; [|discriminate].
  intros [= He Hw]. subst. split; [reflexivity|].
  destruct (loans_of_rows_exceptions _ _ _ Hl) as [-> | [-> | [-> | ->]]]; auto 10.
Qed.

Lemma list_raises_witness :
  World (fs Sample.logged_in) [Get Sample.session; Get (Sample.session ++ "/NT29?ACC=210")]
  = World (fs (fst (World (fs Sample.logged_in) [Get Sample.session],
                    Client (Sample.record Sample.token "alice") Sample.session)))
          ([Get Sample.session] ++ [Get (Sample.session ++ "/NT29?ACC=210")]) ∧
  (IndexError = RequestException ∨ IndexError = ParserError ∨ IndexError = IndexError ∨
   IndexError = AttributeError ∨ IndexError = ValueError ∨ IndexError = OverflowError).
Proof.
  apply (list_raises_before_printing
           (Sample.portal_with Sample.index "ok" Sample.welcome
              [Sample.header; Sample.row ["1"; "A-1"; "Don Quijote"; "31-02-2024"]])
           Sample.today Sample.CONFIG_DIR [] (Sample.logged_in, __init__)
           (World (fs Sample.logged_in) [Get Sample.session],
            Client (Sample.record Sample.token "alice") Sample.session)).
  - vm_compute. reflexivity.
  - vm_compute. reflexivity.
Defined.

(** ** Pages without loans *)

Lemma flat_map_nil {A B : Type} (f : A -> list B) (l : list A) :
  Forall (fun x => f x = []) l -> flat_map f l = [].
Proof. induction 1 as [|x l Hx _ IH]; [reflexivity|]. cbn. rewrite Hx, IH. reflexivity. Qed.

(** A document none of whose elements is the loans form has no loans rows. *)
Lemma xpath_loans_without_form (tree : element) :
  Forall (fun e => String.eqb (tag e) "form" && has_attr "id" "abnformpre" e = false)
         (iter tree) ->
  xpath_loans tree = [].
Proof.
  unfold xpath_loans. induction tree as [t a x cs IH] using element_rect'.
  intros H. cbn [iter] in H. apply Forall_cons in H as [Hhere Hbelow].
  cbn [form_rows tag] in *. rewrite Hhere. cbn [andb app].
  apply flat_map_nil. apply List.Forall_flat_map in Hbelow.
  rewrite Forall_forall in IH, Hbelow |- *. intros c Hc. apply IH; auto.
Qed.

(** X11: a page that holds no form [abnformpre] at all, whatever else it
    holds, is taken for an account without loans: [list] prints the empty
    table and returns. *)
Theorem page_without_form_prints_empty_table (net : portal) (today : date)
    (CONFIG_DIR : string) (tty : list string) (s s1 : state) (res : response)
    (tree : element) :
  _ensure_auth net CONFIG_DIR tty s = Ok tt s1 ->
  http_get net (base (snd s1) ++ "/NT29?ACC=210") = Some res ->
  resp_tree res = Some tree ->
  Forall (fun e => String.eqb (tag e) "form" && has_attr "id" "abnformpre" e = false)
         (iter tree) ->
  list_ net today CONFIG_DIR tty s =
    Ok tt (World (fs (fst s1))
             (trace (fst s1) ++
              [Get (base (snd s1) ++ "/NT29?ACC=210");
               PrintTable ["Title"; "Due date"; "Remaining"] []]),
           snd s1).
Proof.
  intros Hens Hget Htree Hnone. rewrite (list_eq _ _ _ _ _ _ Hens). cbv zeta.
  rewrite Hget, Htree, (xpath_loans_without_form _ Hnone). reflexivity.
Qed.

(** The loans page is answered with a notice. *)
Lemma page_without_form_witness :
  list_ (Portal (fun url => if String.eqb url (Sample.session ++ "/NT29?ACC=210")
                            then Some Sample.maintenance
                            else http_get Sample.net url)
                (http_post Sample.net))
        Sample.today Sample.CONFIG_DIR [] (Sample.logged_in, __init__) =
    Ok tt (World (fs Sample.logged_in)
             ([Get Sample.session] ++
              [Get (Sample.session ++ "/NT29?ACC=210");
               PrintTable ["Title"; "Due date"; "Remaining"] []]),
           Client (Sample.record Sample.token "alice") Sample.session).
Proof.
  apply (page_without_form_prints_empty_table _ Sample.today Sample.CONFIG_DIR []
           (Sample.logged_in, __init__)
           (World (fs Sample.logged_in) [Get Sample.session],
            Client (Sample.record Sample.token "alice") Sample.session)
           Sample.maintenance Sample.maintenance_tree).
  - vm_compute. reflexivity.
  - vm_compute. reflexivity.
  - reflexivity.
  - repeat constructor.
Defined.

(** ** Days remaining *)

Lemma valid_date_bounds (d : date) :
  valid_date d ->
  1 <= year d <= 9999 ∧ 1 <= month d <= 12 ∧ 1 <= day d <= days_in_month (year d) (month d).
Proof.
  unfold valid_date, mk_date. destruct (negb _); [discriminate|].
  destruct (_ && _) eqn:E; [|discriminate]. intros _.
  repeat (apply andb_true_iff in E as [E ?]). rewrite Z.leb_le in *.
  repeat split; assumption.
Qed.

Lemma mod_multiple (y n k : Z) : n <> 0 -> k <> 0 -> y mod (n * k) = 0 -> y mod n = 0.
Proof.
  intros Hn Hk H. apply Z.mod_divide in H; [|lia]. apply Z.mod_divide; [exact Hn|].
  eapply Z.divide_trans; [|exact H]. exists k. lia.
Qed.

Lemma days_before_next_year (y : Z) :
  days_before_year (y + 1) = days_before_year y + 365 + (if is_leap y then 1 else 0).
Proof.
  unfold days_before_year, is_leap. replace (y + 1 - 1) with y by lia.
  assert (H4 : y / 4 = (y - 1) / 4 + (if y mod 4 =? 0 then 1 else 0))
    by (destruct (Z.eqb_spec (y mod 4) 0); Z.div_mod_to_equations; lia).
  assert (H100 : y / 100 = (y - 1) / 100 + (if y mod 100 =? 0 then 1 else 0))
    by (destruct (Z.eqb_spec (y mod 100) 0); Z.div_mod_to_equations; lia).
  assert (H400 : y / 400 = (y - 1) / 400 + (if y mod 400 =? 0 then 1 else 0))
    by (destruct (Z.eqb_spec (y mod 400) 0); Z.div_mod_to_equations; lia).
  rewrite H4, H100, H400.
  pose proof (mod_multiple y 4 25) as M1. pose proof (mod_multiple y 100 4) as M2.
  change (4 * 25) with 100 in M1. change (100 * 4) with 400 in M2.
  destruct (Z.eqb_spec (y mod 4) 0), (Z.eqb_spec (y mod 100) 0), (Z.eqb_spec (y mod 400) 0);
    cbn [negb andb orb]; try lia; exfalso; auto with zarith.
Qed.

Lemma days_before_year_mono (y y' : Z) :
  y <= y' -> days_before_year y <= days_before_year y'.
Proof.
  intros H. replace y' with (y + Z.of_nat (Z.to_nat (y' - y))) by lia.
  induction (Z.to_nat (y' - y)) as [|n IH]; [rewrite Z.add_0_r; lia|].
  replace (y + Z.of_nat (S n)) with (y + Z.of_nat n + 1) by lia.
  rewrite days_before_next_year. destruct (is_leap _); lia.
Qed.

(** The first day of a month follows the last day of the month before. *)
Lemma days_before_next_month (y m : Z) :
  1 <= m <= 11 -> days_before_month y (m + 1) = days_before_month y m + days_in_month y m.
Proof.
  intros H.
  assert (Hm : m = 1 ∨ m = 2 ∨ m = 3 ∨ m = 4 ∨ m = 5 ∨ m = 6 ∨ m = 7 ∨ m = 8 ∨ m = 9 ∨
               m = 10 ∨ m = 11) by lia.
  repeat (destruct Hm as [-> | Hm]); try subst m;
    unfold days_before_month, days_in_month; cbn; destruct (is_leap y); reflexivity.
Qed.

Lemma days_in_month_pos (y m : Z) : 28 <= days_in_month y m <= 31.
Proof.
  unfold days_in_month. destruct (m =? 2); [destruct (is_leap y); lia|].
  destruct (_ || _); lia.
Qed.

Lemma days_before_month_mono (y m m' : Z) :
  1 <= m -> m < m' -> m' <= 12 ->
  days_before_month y m + days_in_month y m <= days_before_month y m'.
Proof.
  intros H1 H2 H3. replace m' with (m + 1 + Z.of_nat (Z.to_nat (m' - m - 1))) in * by lia.
  induction (Z.to_nat (m' - m - 1)) as [|n IH].
  - rewrite Z.add_0_r, days_before_next_month by lia. lia.
  - destruct (Z.le_gt_cases (m + 1 + Z.of_nat (S n)) 12) as [Hle|Hgt]; [|lia].
    replace (m + 1 + Z.of_nat (S n)) with (m + 1 + Z.of_nat n + 1) by lia.
    rewrite days_before_next_month by lia.
    pose proof (days_in_month_pos y (m + 1 + Z.of_nat n)). lia.
Qed.

(** The days of a year end before the next year starts. *)
Lemma days_before_month_year (y m : Z) :
  1 <= m <= 12 ->
  0 <= days_before_month y m ∧
  days_before_month y m + days_in_month y m <= 365 + (if is_leap y then 1 else 0).
Proof.
  intros H.
  assert (Hm : m = 1 ∨ m = 2 ∨ m = 3 ∨ m = 4 ∨ m = 5 ∨ m = 6 ∨ m = 7 ∨ m = 8 ∨ m = 9 ∨
               m = 10 ∨ m = 11 ∨ m = 12) by lia.
  repeat (destruct Hm as [-> | Hm]); try subst m;
    cbv -[is_leap Z.add Z.le]; destruct (is_leap y); lia.
Qed.

(** [toordinal] respects the order of the calendar. *)
Lemma toordinal_lt (a b : date) :
  valid_date a -> valid_date b -> date_lt a b -> toordinal a < toordinal b.
Proof.
  intros Ha Hb Hlt. apply valid_date_bounds in Ha, Hb. unfold toordinal.
  destruct Hlt as [Hy | [Hy [Hm | [Hm Hd]]]].
  - pose proof (days_before_year_mono (year a + 1) (year b)) as Hmono.
    rewrite days_before_next_year in Hmono.
    pose proof (days_before_month_year (year a) (month a)).
    pose proof (days_before_month_year (year b) (month b)). lia.
  - rewrite Hy in *.
    pose proof (days_before_month_mono (year b) (month a) (month b)). lia.
  - rewrite Hy, Hm in *. lia.
Qed.

Lemma date_trichotomy (a b : date) : date_lt a b ∨ a = b ∨ date_lt b a.
Proof.
  destruct a as [ya ma da], b as [yb mb db]. unfold date_lt. cbn [year month day].
  destruct (Z.lt_trichotomy ya yb) as [?|[->|?]]; auto.
  destruct (Z.lt_trichotomy ma mb) as [?|[->|?]]; auto 6.
  destruct (Z.lt_trichotomy da db) as [?|[->|?]]; auto 10.
Qed.

Lemma days_between_sign (a b : date) :
  valid_date a -> valid_date b ->
  (days_between a b < 0 ↔ date_lt a b) ∧ (days_between a b = 0 ↔ a = b).
Proof.
  intros Ha Hb. unfold days_between.
  destruct (date_trichotomy a b) as [Hlt | [-> | Hgt]].
  - pose proof (toordinal_lt _ _ Ha Hb Hlt). split; split; try lia; auto.
    intros ->. lia.
  - split; split; try lia; auto. intros Hlt. pose proof (toordinal_lt _ _ Ha Hb Hlt). lia.
  - pose proof (toordinal_lt _ _ Hb Ha Hgt). split; split; try lia.
    + intros Hlt. pose proof (toordinal_lt _ _ Ha Hb Hlt). lia.
    + intros ->. lia.
Qed.

(** X12: in the table [list] prints, the days remaining are negative
    exactly for the loans due before today and zero exactly for those due
    today, today being a date of the calendar. *)
Theorem overdue_loans_are_negative (net : portal) (today : date) (CONFIG_DIR : string)
    (tty : list string) (s s' : state) :
  valid_date today ->
  list_ net today CONFIG_DIR tty s = Ok tt s' ->
  ∃ evs loans,
    trace (fst s') = (evs ++ [PrintTable ["Title"; "Due date"; "Remaining"] loans])%list ∧
    Forall (fun l => (remaining_days l < 0 ↔ date_lt (due_date l) today) ∧
                     (remaining_days l = 0 ↔ due_date l = today)) loans.
Proof.
  intros Htoday Hlist.
  destruct (_ensure_auth net CONFIG_DIR tty s) as [[] s1|e w1] eqn:Hens;
    [|rewrite (list_ensure_raises _ _ _ _ _ _ _ Hens) in Hlist; discriminate].
  destruct (list_ok_inv _ _ _ _ _ _ _ Hens Hlist)
    as (res & tree & loans & _ & _ & Hall & ->).
  exists (trace (fst s1) ++ [Get (base (snd s1) ++ "/NT29?ACC=210")])%list, loans.
  split; [cbn [fst trace]; rewrite <- app_assoc; reflexivity|].
  clear Hlist Hens. induction Hall as [|row l rows loans Hrow _ IH]; constructor; [|exact IH].
  destruct Hrow as (c3 & t3 & c4 & t4 & sd & sm & sy & more & d & m & y &
                    _ & _ & _ & _ & _ & _ & _ & _ & Hdate & ->).
  cbn [remaining_days due_date]. apply (days_between_sign (Date y m d) today); assumption.
Qed.

Lemma overdue_loans_witness :
  ∃ evs loans,
    trace (fst (World (fs Sample.logged_in)
                  [Get Sample.session; Get (Sample.session ++ "/NT29?ACC=210");
                   PrintTable ["Title"; "Due date"; "Remaining"]
                     [Loan "Don Quijote" (Date 2024 1 1) (-9);
                      Loan "La Regenta" (Date 2024 2 15) 36]],
                Client (Sample.record Sample.token "alice") Sample.session))
    = (evs ++ [PrintTable ["Title"; "Due date"; "Remaining"] loans])%list ∧
    Forall (fun l => (remaining_days l < 0 ↔ date_lt (due_date l) Sample.today) ∧
                     (remaining_days l = 0 ↔ due_date l = Sample.today)) loans.
Proof.
  apply (overdue_loans_are_negative Sample.net Sample.today Sample.CONFIG_DIR []
           (Sample.logged_in, __init__)).
  - reflexivity.
  - exact list_two_loans.
Defined.

(** ** Reading the expected pages *)

Lemma prefix_cons (x y : ascii) (u v : string) :
  String.prefix (String x u) (String y v) = true ↔ x = y ∧ String.prefix u v = true.
Proof.
  cbn [String.prefix]. destruct (ascii_dec x y) as [->|Hne]; split; auto.
  - intros [_ H]. exact H.
  - discriminate.
  - intros [H _]. contradiction.
Qed.

Lemma prefix_nil (v : string) : String.prefix "" v = true.
Proof. destruct v; reflexivity. Qed.

Lemma prefix_refl (u : string) : String.prefix u u = true.
Proof. rewrite <- (append_nil_r u) at 2. apply prefix_app. Qed.

(** A prefix of [a ++ v] ends inside [a], or is [a] and a prefix of [v]. *)
Lemma prefix_split (u a v : string) :
  String.prefix u (a ++ v) = true ->
  String.prefix u a = true ∨ ∃ t, u = (a ++ t)%string ∧ String.prefix t v = true.
Proof.
  revert a. induction u as [|x u IH]; intros a H; [left; apply prefix_nil|].
  destruct a as [|y a]; [right; exists (String x u); auto|].
  rewrite append_cons in H. apply prefix_cons in H as [-> H].
  destruct (IH a H) as [Hin | (t & -> & Ht)].
  - left. apply prefix_cons. auto.
  - right. exists t. rewrite append_cons. auto.
Qed.

Lemma tails_spec (a t : string) : a ≠ "" -> In t (tails (a ++ t)).
Proof.
  induction a as [|x a IH]; [congruence|]. intros _. rewrite append_cons. cbn [tails].
  destruct a as [|y a]; [left; reflexivity|]. right. apply IH. discriminate.
Qed.

Lemma borderless_spec (sep a t : string) :
  borderless sep = true -> a ≠ "" -> t ≠ "" -> sep = (a ++ t)%string ->
  String.prefix t sep = false.
Proof.
  unfold borderless. rewrite forallb_forall. intros H Ha Ht Hsep.
  specialize (H t). rewrite Hsep in H at 1. specialize (H (tails_spec a t Ha)).
  apply orb_true_iff in H as [H | H].
  - apply String.eqb_eq in H. contradiction.
  - apply negb_true_iff in H. exact H.
Qed.

(** After a piece that does not start with [sep], an occurrence of [sep]
    that follows does not start earlier. *)
Lemma no_early_match (sep a s : string) :
  borderless sep = true -> a ≠ "" -> String.prefix sep a = false ->
  String.prefix sep (a ++ sep ++ s) = false.
Proof.
  intros Hb Ha Hp. destruct (String.prefix sep (a ++ sep ++ s)) eqn:E; [|reflexivity].
  apply prefix_split in E as [E | (t & Hsep & Ht)]; [congruence|].
  destruct (decide (t = "")) as [-> | Hne].
  - rewrite append_nil_r in Hsep. subst a. rewrite prefix_refl in Hp. discriminate.
  - apply prefix_split in Ht as [Ht | (t' & Ht' & _)].
    + rewrite (borderless_spec sep a t Hb Ha Hne Hsep) in Ht. discriminate.
    + exfalso. apply (f_equal String.length) in Hsep. rewrite Ht' in Hsep.
      rewrite !length_append in Hsep. destruct a; [congruence|]. cbn [String.length] in Hsep. lia.
Qed.

Lemma split_skip (sep t cur s : string) :
  Str.split_from sep (String.length t) cur (t ++ s) = Str.split_from sep 0 cur s.
Proof.
  induction t as [|x t IH]; [reflexivity|].
  rewrite append_cons. cbn [String.length Str.split_from]. exact IH.
Qed.

Lemma split_at_sep (sep cur s : string) :
  sep ≠ "" ->
  Str.split_from sep 0 cur (sep ++ s) = cur :: Str.split_from sep 0 "" s.
Proof.
  intros Hne. destruct sep as [|x sep]; [congruence|].
  rewrite append_cons. cbn [Str.split_from]. rewrite <- append_cons, prefix_app.
  cbn [String.length]. rewrite Nat.sub_1_r. cbn [Nat.pred]. rewrite split_skip. reflexivity.
Qed.

Lemma split_from_first (sep a cur s : string) :
  borderless sep = true -> sep ≠ "" -> Str.contains sep a = false ->
  Str.split_from sep 0 cur (a ++ sep ++ s) = (cur ++ a)%string :: Str.split_from sep 0 "" s.
Proof.
  intros Hb Hne. revert cur. induction a as [|x a IH]; intros cur H.
  - rewrite append_nil_r. change ("" ++ sep ++ s)%string with (sep ++ s)%string.
    apply split_at_sep, Hne.
  - cbn [Str.contains] in H. apply orb_false_iff in H as [Hp Hc].
    pose proof (no_early_match sep (String x a) s Hb ltac:(discriminate) Hp) as Hno.
    rewrite append_cons in *. cbn [Str.split_from]. rewrite Hno, (IH _ Hc), append_assoc.
    reflexivity.
Qed.

(** [s.split(sep)] finds [sep] right after a piece that does not hold it. *)
Lemma split_first (sep a s : string) :
  borderless sep = true -> sep ≠ "" -> Str.contains sep a = false ->
  Str.split sep (a ++ sep ++ s) = a :: Str.split sep s.
Proof. intros Hb Hne H. unfold Str.split. now rewrite split_from_first. Qed.

Lemma getitem_head {A : Type} (x : A) (l : list A) : getitem (x :: l) 0 = inr x.
Proof. reflexivity. Qed.

(** X13: when the first anchor [lecidentify] has a title made of the
    marker ["Cerrar sesión "] and a name, possibly after other text, the name
    read is that name, provided neither part holds the marker itself. *)
Theorem display_name_reads_the_title (tree : element) (before name : string)
    (others : list string) :
  xpath_attr "a" "id" "lecidentify" "title" tree =
    (before ++ "Cerrar sesión " ++ name)%string :: others ->
  Str.contains "Cerrar sesión " before = false ->
  Str.contains "Cerrar sesión " name = false ->
  display_name tree = inr name.
Proof.
  intros Htitle Hbefore Hname. unfold display_name. rewrite Htitle.
  rewrite getitem_head. result_step.
  rewrite split_first by (auto; discriminate). rewrite (split_no_sep _ _ Hname).
  reflexivity.
Qed.

Lemma display_name_witness :
  display_name (Sample.page [Sample.anchor "Cerrar sesión Jane Doe"]) = inr "Jane Doe".
Proof.
  apply (display_name_reads_the_title _ "" "Jane Doe" []); vm_compute; reflexivity.
Defined.

(** X14: for the URL of a session, [ABNETSYS_BASE/<token>/NT1...], the
    token read is [<token>], provided the token does not hold ["/NT1"] and
    what follows the base does not hold ["abnetopac/"]. *)
Theorem session_token_reads_the_url (token rest : string) :
  Str.contains "/NT1" token = false ->
  Str.contains "abnetopac/" (token ++ "/NT1" ++ rest) = false ->
  session_token (ABNETSYS_BASE ++ "/" ++ token ++ "/NT1" ++ rest) = inr token.
Proof.
  intros Htoken Hrest. unfold session_token.
  change (ABNETSYS_BASE ++ "/" ++ token ++ "/NT1" ++ rest)%string
    with ("https://catalogobiblioteca.uclm.es/cgi-bin/" ++ "abnetopac/" ++
          (token ++ "/NT1" ++ rest))%string.
  rewrite split_first by (vm_compute; try reflexivity; discriminate).
  rewrite (split_no_sep _ _ Hrest).
  change (getitem ["https://catalogobiblioteca.uclm.es/cgi-bin/";
                   (token ++ "/NT1" ++ rest)%string] 1)
    with (inr (token ++ "/NT1" ++ rest)%string : result string).
  result_step. rewrite split_first by (auto; discriminate). reflexivity.
Qed.

Lemma session_token_witness :
  session_token (ABNETSYS_BASE ++ "/" ++ "O7046/ID5f3a" ++ "/NT1" ++ "?ACC=201") =
    inr "O7046/ID5f3a".
Proof. apply session_token_reads_the_url; vm_compute; reflexivity. Defined.

(** X15: for a refresh tag whose content is [<delay>URL=/cgi-bin/abnetopac
    <path>?<query>], the path the form is posted under is [<path>], provided
    the separators ["URL="], ["?"] and ["/cgi-bin/abnetopac"] occur nowhere
    else before the query. *)
Theorem index_path_reads_the_refresh (tree : element) (delay path query : string)
    (others : list string) :
  xpath_attr "meta" "http-equiv" "Refresh" "content" tree =
    (delay ++ "URL=" ++ "/cgi-bin/abnetopac" ++ path ++ "?" ++ query)%string :: others ->
  Str.contains "URL=" delay = false ->
  Str.contains "URL=" ("/cgi-bin/abnetopac" ++ path ++ "?" ++ query) = false ->
  Str.contains "?" ("/cgi-bin/abnetopac" ++ path) = false ->
  Str.contains "/cgi-bin/abnetopac" path = false ->
  index_path tree = inr path.
Proof.
  intros Hcontent Hdelay Htarget Hquery Hpath. unfold index_path. rewrite Hcontent.
  rewrite getitem_head. result_step.
  rewrite split_first by (auto; discriminate). rewrite (split_no_sep _ _ Htarget).
  change (getitem [delay; ("/cgi-bin/abnetopac" ++ path ++ "?" ++ query)%string] 1)
    with (inr ("/cgi-bin/abnetopac" ++ path ++ "?" ++ query)%string : result string).
  result_step. rewrite <- (append_assoc "/cgi-bin/abnetopac" path).
  rewrite split_first by (auto; discriminate). rewrite getitem_head. result_step.
  unfold Str.replace.
  change ("/cgi-bin/abnetopac" ++ path)%string
    with ("" ++ "/cgi-bin/abnetopac" ++ path)%string.
  rewrite split_first by (auto; discriminate). rewrite (split_no_sep _ _ Hpath).
  reflexivity.
Qed.

Lemma index_path_witness : index_path Sample.index_tree = inr "/O7046/ID5f3a".
Proof.
  apply (index_path_reads_the_refresh _ "0;" "/O7046/ID5f3a" "ACC=101" []);
    vm_compute; reflexivity.
Defined.

(** ** A login that is accepted, and the run after it *)



(** X17: after a [login] that returned, a later run of [status], by a new
    client on the disk that login left, whose probe is answered without the
    timeout marker and whose status page shows a name, makes these two
    requests, prints the user that login stored with that name, and leaves
    the disk as it is. *)
Theorem status_after_login (net : portal) (CONFIG_DIR : string) (tty : list string)
    (w : world) (c : client) (s1 : state) :
  login net CONFIG_DIR tty (w, c) = Ok tt s1 ->
  ∃ auth_id user,
    _creds (snd s1) = with_session (_creds c) auth_id user ∧
    ∀ tty' c0 probe page tree name,
      http_get net (ABNETSYS_BASE ++ "/" ++ auth_id) = Some probe ->
      Str.contains "/abnetopac/timeout.html" (resp_text probe) = false ->
      http_get net ((ABNETSYS_BASE ++ "/" ++ auth_id) ++ "/NT1?ACC=101") = Some page ->
      resp_tree page = Some tree ->
      display_name tree = inr name ->
      status net CONFIG_DIR tty' (fst s1, c0) =
        Ok tt (World (fs (fst s1))
                 (trace (fst s1) ++
                  [Get (ABNETSYS_BASE ++ "/" ++ auth_id);
                   Get ((ABNETSYS_BASE ++ "/" ++ auth_id) ++ "/NT1?ACC=101");
                   PrintFmt "authenticated as {} ({})" [JString user; JString name]]),
               Client (_creds (snd s1)) (ABNETSYS_BASE ++ "/" ++ auth_id)).
Proof.
  intros Hlogin.
  apply login_ok in Hlogin
    as (_ & user & _ & _ & _ & _ & auth_id & _ & _ & _ & _ & Hc & _ & Hf).
  exists auth_id, user. split; [exact Hc|].
  intros tty' c0 probe page tree name Hprobe Hmark Hpage Htree Hname.
  assert (Ha : _creds (snd s1) !! "auth_id" = Some (JString auth_id)).
  { rewrite Hc. unfold with_session. rewrite lookup_insert_ne by discriminate.
    apply lookup_insert_eq. }
  assert (Hu : _creds (snd s1) !! "user_id" = Some (JString user)).
  { rewrite Hc. apply lookup_insert_eq. }
  pose proof (ensure_valid net CONFIG_DIR tty' (fst s1) c0 _ _ _ Hf Ha Hprobe Hmark) as Hens.
  rewrite (status_eq _ _ _ _ _ Hens). cbv zeta. cbn [fst snd base _creds fs trace].
  rewrite Hpage, Htree, Hname, Hu, <- app_assoc. reflexivity.
Qed.

Lemma status_after_login_witness :
  ∃ auth_id user,
    Sample.record Sample.token "alice" = with_session (_creds __init__) auth_id user ∧
    ∀ tty' c0 probe page tree name,
      http_get Sample.net (ABNETSYS_BASE ++ "/" ++ auth_id) = Some probe ->
      Str.contains "/abnetopac/timeout.html" (resp_text probe) = false ->
      http_get Sample.net ((ABNETSYS_BASE ++ "/" ++ auth_id) ++ "/NT1?ACC=101") = Some page ->
      resp_tree page = Some tree ->
      display_name tree = inr name ->
      status Sample.net Sample.CONFIG_DIR tty'
             (World (fs Sample.logged_in)
                (attempt_events "alice" "secret" "/O7046/ID5f3a" ++
                 [PrintFmt "successfully authenticated as {} ({})"
                           [JString "alice"; JString "Jane Doe"]]), c0) =
        Ok tt (World (fs Sample.logged_in)
                 ((attempt_events "alice" "secret" "/O7046/ID5f3a" ++
                   [PrintFmt "successfully authenticated as {} ({})"
                             [JString "alice"; JString "Jane Doe"]]) ++
                  [Get (ABNETSYS_BASE ++ "/" ++ auth_id);
                   Get ((ABNETSYS_BASE ++ "/" ++ auth_id) ++ "/NT1?ACC=101");
                   PrintFmt "authenticated as {} ({})" [JString user; JString name]]),
               Client (Sample.record Sample.token "alice")
                      (ABNETSYS_BASE ++ "/" ++ auth_id)).
Proof.
  apply (status_after_login Sample.net Sample.CONFIG_DIR ["alice"; "secret"]
           Sample.empty_disk __init__
           (World (fs Sample.logged_in)
              (attempt_events "alice" "secret" "/O7046/ID5f3a" ++
               [PrintFmt "successfully authenticated as {} ({})"
                         [JString "alice"; JString "Jane Doe"]]),
            Client (Sample.record Sample.token "alice") Sample.session)).
  vm_compute. reflexivity.
Defined.
